(** * The supernova distributor: funding sub-accounts before a stress run

    A shallow embedding of [internal/distributor/distributor.go]: the scan of
    the sub-accounts, the ordering of the short ones, the count of fundable
    accounts and the loop that signs and broadcasts the transfers.  The three
    collaborators of the [Distributor] struct (account store, signer,
    broadcaster) are functions over an abstract ledger state; every call to
    one of them is recorded in a trace, so that statements about how many
    lookups or transfers a run performs can be made. *)

From Stdlib Require Import String ZArith List Bool Lia Permutation Sorted.
Import ListNotations.
Local Open Scope string_scope.
Local Open Scope list_scope.
Local Open Scope Z_scope.

(** ** Go values *)

Module Go.

(** Conversion to [int64]: two's complement wrap-around. *)
Definition int64 (z : Z) : Z := (z + 2 ^ 63) mod 2 ^ 64 - 2 ^ 63.

(** Conversion to [uint64]. *)
Definition uint64 (z : Z) : Z := z mod 2 ^ 64.

Definition MaxInt64 : Z := 2 ^ 63 - 1.
Definition MinInt64 : Z := - 2 ^ 63.

(** Run-time panics the embedded code can raise. *)
Inductive panic : Type :=
| SliceBoundsOutOfRange (low high : Z)   (* s[low:] with low > len(s) *)
| IndexOutOfRange (index len : Z)        (* s[index] with index >= len(s) *)
| CoinPanic.                             (* a panic raised inside package std *)

(** Values of the [error] interface: [errors.New(text)], and
    [fmt.Errorf(format, err)] with a [%w] verb, which wraps [err]. *)
Inductive error : Type :=
| errors_New (text : string)
| fmt_Errorf (format : string) (err : error).

(** [errors.Unwrap]. *)
Definition Unwrap (e : error) : option error :=
  match e with
  | errors_New _ => None
  | fmt_Errorf _ err => Some err
  end.

End Go.

(** ** Package [crypto] and [keys] *)

Module crypto.
(** An address, identified by its bech32 text ([Address.String()]). *)
Record Address : Type := { AddressString : string }.
End crypto.

Module keys.
(** [keys.Info]: a key of the keybase; only [GetAddress] is used here. *)
Record Info : Type := { GetName : string; GetAddress : crypto.Address }.
End keys.

(** ** Package [std] *)

Module std.

(** [std.Coin], as the struct literals of the source build it. *)
Record Coin : Type := { Denom : string; Amount : Z }.

(** Modelled from the spec: package [std] of gnolang/gno is imported, its
    source is not part of the repository.  The spec (section 3) has a
    balance be "a non-negative integer amount denominated in a single fixed
    unit", so a [Coins] value is represented by the amount it holds in that
    unit, the empty set of coins being 0.  Every [Coin] of this file
    carries [common.Denomination], so the library's check that two
    denominations agree never fires and is left out. *)
Definition Coins : Type := Z.

(** Modelled from the spec: [Coins.AmountOf(denom)], the balance in the
    single unit. *)
Definition AmountOf (coins : Coins) (denom : string) : Z := coins.

(** Modelled from the spec: [Coin.IsLT], comparison of the amounts. *)
Definition IsLT (coin other : Coin) : bool := Amount coin <? Amount other.

(** Modelled from the spec: [Coin.Add], "shortfall + fixed fee".  The sum
    is an [int64]; the library panics when it does not fit ([None]). *)
Definition Add (coin coinB : Coin) : option Coin :=
  let sum := Amount coin + Amount coinB in
  if (Go.MinInt64 <=? sum) && (sum <=? Go.MaxInt64)
  then Some {| Denom := Denom coin; Amount := sum |}
  else None.

(** Modelled from the spec: [NewCoins(coin)] for one coin.  A zero coin is
    dropped (the empty set); a coin below zero is not a valid set and the
    library panics ([None]). *)
Definition NewCoins (coin : Coin) : option Coins :=
  if Amount coin =? 0 then Some 0
  else if Amount coin <? 0 then None
  else Some (Amount coin).

(** Modelled from the spec: [coins.IsAllLT(coinsB)], "remaining budget
    cannot cover" the cost: every amount of [coins] is below that of
    [coinsB]. *)
Definition IsAllLT (coins coinsB : Coins) : bool := coins <? coinsB.

(** Modelled from the spec: [coins.Sub(coinsB)].  The method has a value
    receiver and returns the difference as a new value; the receiver is
    left as it was.  A difference below zero panics ([None]). *)
Definition Sub (coins coinsB : Coins) : option Coins :=
  if coins - coinsB <? 0 then None else Some (coins - coinsB).

(** [std.Fee] and [std.NewFee]. *)
Record Fee : Type := { GasWanted : Z; GasFee : Coin }.
Definition NewFee (gasWanted : Z) (gasFee : Coin) : Fee :=
  {| GasWanted := gasWanted; GasFee := gasFee |}.

End std.

(** ** Package [bank], transactions and accounts *)

Module bank.
Record MsgSend : Type := {
  FromAddress : crypto.Address;
  ToAddress : crypto.Address;
  Amount : std.Coins
}.
End bank.

(** [std.Tx].  [Signatures] is empty in the literal of the source and is
    filled by the signer. *)
Record Tx : Type := {
  Msgs : list bank.MsgSend;
  Fee : std.Fee;
  Signatures : list string
}.

Module gnoland.
(** [gnoland.GnoAccount]: address, balance and sequence number
    (a [uint64]). *)
Record GnoAccount : Type := {
  Address : crypto.Address;
  Coins : std.Coins;
  Sequence : Z
}.
Definition GetAddress (a : GnoAccount) : crypto.Address := Address a.
End gnoland.

(** ** Package [common] *)

Module common.

(** Modelled from the spec: package [internal/common] is not under src/.
    The unit and the fee are those of the comment on line 145 of
    distributor.go, "1ugnot fee (fixed)", and of the spec's scenario
    "fixed fee = 1".  [InitialTxCost] and [EncryptPassword] are parameters
    of the development below. *)
Definition Denomination : string := "ugnot".

(** Modelled from the spec: [common.DefaultGasFee], the "fixed fee = 1". *)
Definition DefaultGasFee : std.Coin :=
  {| std.Denom := Denomination; std.Amount := 1 |}.

End common.

(** ** Calls to the collaborators *)

(** The record of one call: its arguments and what it returned. *)
Inductive Event : Type :=
| EvGetAccount (address : string) (res : Go.error + gnoland.GnoAccount)
| EvSignTx (tx : Tx) (account : gnoland.GnoAccount) (nonce : Z)
           (password : string) (res : Go.error + Tx)
| EvBroadcast (tx : Tx) (res : option Go.error).

(** The error a recorded call returned, if any. *)
Definition eventError (e : Event) : option Go.error :=
  match e with
  | EvGetAccount _ (inl err) => Some err
  | EvSignTx _ _ _ _ (inl err) => Some err
  | EvBroadcast _ (Some err) => Some err
  | _ => None
  end.

Definition isGetAccount (e : Event) : bool :=
  match e with EvGetAccount _ _ => true | _ => false end.

Definition isSignTx (e : Event) : bool :=
  match e with EvSignTx _ _ _ _ _ => true | _ => false end.

Definition isBroadcast (e : Event) : bool :=
  match e with EvBroadcast _ _ => true | _ => false end.

(** The sequence numbers the signer was called with, in call order. *)
Fixpoint signNonces (tr : list Event) : list Z :=
  match tr with
  | [] => []
  | EvSignTx _ _ nonce _ _ :: tr' => nonce :: signNonces tr'
  | _ :: tr' => signNonces tr'
  end.

(** The addresses the transactions handed to signer or broadcaster pay to. *)
Definition txTargets (tx : Tx) : list crypto.Address :=
  map bank.ToAddress (Msgs tx).

Fixpoint transferTargets (tr : list Event) : list crypto.Address :=
  match tr with
  | [] => []
  | EvSignTx tx _ _ _ _ :: tr' => txTargets tx ++ transferTargets tr'
  | EvBroadcast tx _ :: tr' => txTargets tx ++ transferTargets tr'
  | EvGetAccount _ _ :: tr' => transferTargets tr'
  end.

(** The local [shortAccount] struct of [fundAccounts]. *)
Record shortAccount : Type := {
  account : keys.Info;
  missingFunds : std.Coin
}.

(** What [fundAccounts] returns: [([]keys.Info, error)].  [None] is [nil]. *)
Definition GoResult : Type := (option (list keys.Info) * option Go.error)%type.

(** ** [sort.Slice] *)

Section Sort.

Context {A : Type}.
Variable less : A -> A -> bool.

(** [sort.Slice] orders the slice by [less] and promises nothing about the
    order of elements neither of which is less than the other.  It is
    embedded as the insertion sort the library runs on slices of at most 12
    elements: the elements are taken from left to right, and each one is
    placed in the ordered prefix before the elements it is less than.  On
    longer slices the library may leave elements that compare equal in
    another order than this one.  The statements of this development rest
    on two facts about the result only, which every implementation of
    [sort.Slice] shares: it holds the elements of the slice, and no element
    is less than the one before it. *)
Fixpoint insertSorted (x : A) (l : list A) : list A :=
  match l with
  | [] => [x]
  | y :: l' => if less x y then x :: y :: l' else y :: insertSorted x l'
  end.

Definition sort_Slice (l : list A) : list A :=
  fold_left (fun sorted x => insertSorted x sorted) l [].

End Sort.

(** ** Control flow: values, early returns and panics *)

(** A statement of the body of [fundAccounts] yields a value and goes on
    ([Val]), leaves the function through a [return] statement ([Ret]), or
    panics ([Panic]). *)
Inductive Res (A : Type) : Type :=
| Val (a : A)
| Ret (r : GoResult)
| Panic (p : Go.panic).
Arguments Val {A} a.
Arguments Ret {A} r.
Arguments Panic {A} p.

Section Distributor.

(** The state of everything outside the function: the ledger behind the
    store and the broadcaster, the keybase behind the signer. *)
Variable World : Type.

(** The three interfaces of the source.  A call may change the world; a
    Go result [(value, error)] is a sum, the error on the left. *)
Record txBroadcaster : Type := {
  BroadcastTxWithCommit : Tx -> World -> option Go.error * World
}.

Record accountStore : Type := {
  GetAccount : string -> World -> (Go.error + gnoland.GnoAccount) * World
}.

(** [SignTx] writes the signatures into the transaction it is handed and
    leaves its messages and fee as they are; here it returns the
    signatures. *)
Record txSigner : Type := {
  SignTx : Tx -> gnoland.GnoAccount -> Z -> string -> World ->
           (Go.error + list string) * World
}.

(** The [Distributor] struct (its logger is not used by the code embedded
    here). *)
Record Distributor : Type := {
  broadcaster : txBroadcaster;
  store : accountStore;
  signer : txSigner
}.

Record State : Type := { world : World; trace : list Event }.

Definition M (A : Type) : Type := State -> Res A * State.

Definition ret {A} (a : A) : M A := fun s => (Val a, s).

Definition bind {A B} (m : M A) (k : A -> M B) : M B :=
  fun s =>
    match m s with
    | (Val a, s') => k a s'
    | (Ret r, s') => (Ret r, s')
    | (Panic p, s') => (Panic p, s')
    end.

(** The statement [return list, err]. *)
Definition return_ {A} (r : GoResult) : M A := fun s => (Ret r, s).

Definition panic {A} (p : Go.panic) : M A := fun s => (Panic p, s).

(** A call into package [std] that may panic. *)
Definition must {A} (o : option A) : M A :=
  match o with
  | Some a => ret a
  | None => panic Go.CoinPanic
  end.

(** A function body: the value handed to [return] is the value of the
    call. *)
Definition func (body : M GoResult) : M GoResult :=
  fun s =>
    match body s with
    | (Ret r, s') => (Val r, s')
    | other => other
    end.

Local Notation "x <- m ;; k" := (bind m (fun x => k))
  (at level 61, m at next level, right associativity).

(** [s[1:]] and [s[0]]. *)
Definition sliceFrom1 {A} (s : list A) : M (list A) :=
  match s with
  | [] => panic (Go.SliceBoundsOutOfRange 1 0)
  | _ :: s' => ret s'
  end.

Definition index0 {A} (s : list A) : M A :=
  match s with
  | [] => panic (Go.IndexOutOfRange 0 0)
  | x :: _ => ret x
  end.

Variable InitialTxCost : std.Coin.
Variable EncryptPassword : string.
Variable d : Distributor.

(** The calls through the interfaces, each leaving its record in the
    trace. *)
Definition store_GetAccount (address : string)
  : M (Go.error + gnoland.GnoAccount) :=
  fun s =>
    let (res, w) := GetAccount (store d) address (world s) in
    (Val res, {| world := w; trace := trace s ++ [EvGetAccount address res] |}).

Definition signer_SignTx (tx : Tx) (acc : gnoland.GnoAccount) (nonce : Z)
  (password : string) : M (Go.error + Tx) :=
  fun s =>
    let (res, w) := SignTx (signer d) tx acc nonce password (world s) in
    let signed :=
      match res with
      | inl err => inl err
      | inr signatures =>
          inr {| Msgs := Msgs tx; Fee := Fee tx; Signatures := signatures |}
      end in
    (Val signed,
     {| world := w;
        trace := trace s ++ [EvSignTx tx acc nonce password signed] |}).

Definition broadcaster_BroadcastTxWithCommit (tx : Tx) : M (option Go.error) :=
  fun s =>
    let (res, w) := BroadcastTxWithCommit (broadcaster d) tx (world s) in
    (Val res, {| world := w; trace := trace s ++ [EvBroadcast tx res] |}).

(** ** [calculateRuntimeCosts] (lines 69-84) *)
Definition calculateRuntimeCosts (totalTx : Z) : option std.Coin :=
  match std.Add common.DefaultGasFee InitialTxCost with
  | None => None
  | Some baseTxCost =>
      Some {| std.Denom := common.Denomination;
              std.Amount := Go.int64 (totalTx * std.Amount baseTxCost) |}
  end.

(** ** [fundAccounts] (lines 88-201) *)

(** The loop of lines 104-127 over [accounts[1:]]: one lookup per
    sub-account, which goes to [shortAccounts] with its missing funds when
    its balance is below [singleRunCost], to [readyAccounts] otherwise. *)
Fixpoint scanLoop (singleRunCost : std.Coin) (accounts : list keys.Info)
  (readyAccounts : list keys.Info) (shortAccounts : list shortAccount)
  : M (list keys.Info * list shortAccount) :=
  match accounts with
  | [] => ret (readyAccounts, shortAccounts)
  | account :: accounts' =>
      r <- store_GetAccount (crypto.AddressString (keys.GetAddress account)) ;;
      match r with
      | inl err =>
          return_ (None, Some (Go.fmt_Errorf "unable to fetch sub-account, %w" err))
      | inr subAccount =>
          if std.AmountOf (gnoland.Coins subAccount) common.Denomination
             <? std.Amount singleRunCost
          then
            scanLoop singleRunCost accounts' readyAccounts
              (shortAccounts ++
               [{| account := account;
                   missingFunds :=
                     {| std.Denom := common.Denomination;
                        std.Amount :=
                          Go.int64
                            (std.Amount singleRunCost -
                             std.AmountOf (gnoland.Coins subAccount)
                               common.Denomination) |} |}])
          else
            scanLoop singleRunCost accounts' (readyAccounts ++ [account])
              shortAccounts
      end
  end.

(** The comparison handed to [sort.Slice] (lines 131-133). *)
Definition lessMissingFunds (a b : shortAccount) : bool :=
  std.IsLT (missingFunds a) (missingFunds b).

(** The loop of lines 144-157.  It yields the balance and the index it
    ends with; [None] is a panic inside package [std].  The value of
    [distributorBalance.Sub(transferCost)] on line 156 is not assigned to
    anything: the next iteration runs with the same [distributorBalance]. *)
Fixpoint allocLoop (shortAccounts : list shortAccount)
  (distributorBalance : std.Coins) (fundableIndex : nat)
  : option (std.Coins * nat) :=
  match shortAccounts with
  | [] => Some (distributorBalance, fundableIndex)
  | entry :: shortAccounts' =>
      match std.Add common.DefaultGasFee (missingFunds entry) with
      | None => None
      | Some sum =>
          match std.NewCoins sum with
          | None => None
          | Some transferCost =>
              if std.IsAllLT distributorBalance transferCost
              then Some (distributorBalance, fundableIndex)   (* break *)
              else
                let fundableIndex := S fundableIndex in
                match std.Sub distributorBalance transferCost with
                | None => None
                | Some _ => allocLoop shortAccounts' distributorBalance fundableIndex
                end
          end
      end
  end.

(** The transaction of lines 172-181. *)
Definition transferTx (distributor : gnoland.GnoAccount) (entry : shortAccount)
  : option Tx :=
  match std.NewCoins (missingFunds entry) with
  | None => None
  | Some amount =>
      Some {| Msgs := [ {| bank.FromAddress := gnoland.GetAddress distributor;
                           bank.ToAddress := keys.GetAddress (account entry);
                           bank.Amount := amount |} ];
              Fee := std.NewFee 60000 common.DefaultGasFee;
              Signatures := [] |}
  end.

(** The loop of lines 170-198, over [shortAccounts]. *)
Fixpoint execLoop (shortAccounts : list shortAccount)
  (distributor : gnoland.GnoAccount) (nonce : Z)
  (readyAccounts : list keys.Info) : M (list keys.Info) :=
  match shortAccounts with
  | [] => ret readyAccounts
  | entry :: shortAccounts' =>
      tx <- must (transferTx distributor entry) ;;
      signed <- signer_SignTx tx distributor nonce EncryptPassword ;;
      match signed with
      | inl err =>
          return_ (None, Some (Go.fmt_Errorf "unable to sign transaction, %w" err))
      | inr tx =>
          let nonce := Go.uint64 (nonce + 1) in
          sent <- broadcaster_BroadcastTxWithCommit tx ;;
          match sent with
          | Some err =>
              return_ (None,
                       Some (Go.fmt_Errorf "unable to broadcast tx with commit, %w" err))
          | None =>
              execLoop shortAccounts' distributor nonce
                (readyAccounts ++ [account entry])
          end
      end
  end.

Definition fundAccounts (accounts : list keys.Info) (singleRunCost : std.Coin)
  : M GoResult :=
  func (
    subAccounts <- sliceFrom1 accounts ;;
    buckets <- scanLoop singleRunCost subAccounts [] [] ;;
    let readyAccounts := fst buckets in
    let shortAccounts := sort_Slice lessMissingFunds (snd buckets) in
    first <- index0 accounts ;;
    r <- store_GetAccount (crypto.AddressString (keys.GetAddress first)) ;;
    match r with
    | inl err =>
        return_ (None,
                 Some (Go.fmt_Errorf "unable to fetch distributor account, %w" err))
    | inr distributor =>
        alloc <- must (allocLoop shortAccounts (gnoland.Coins distributor) 0%nat) ;;
        let fundableIndex := snd alloc in
        if Nat.eqb fundableIndex 0
        then return_ (None, Some (Go.errors_New "insufficient distributor funds"))
        else
          let nonce := gnoland.Sequence distributor in
          readyAccounts <- execLoop shortAccounts distributor nonce readyAccounts ;;
          return_ (Some readyAccounts, None)
    end).

(** ** [Distribute] (lines 55-64) *)
Definition Distribute (accounts : list keys.Info) (transactions : Z)
  : M GoResult :=
  subAccountCost <- must (calculateRuntimeCosts (Go.int64 transactions)) ;;
  fundAccounts accounts subAccountCost.

End Distributor.

Arguments Build_State {World} world trace.
Arguments world {World} s.
Arguments trace {World} s.
Arguments ret {World A} a s.
Arguments bind {World A B} m k s.
Arguments return_ {World A} r s.
Arguments panic {World A} p s.
Arguments must {World A} o s.
Arguments func {World} body s.
Arguments sliceFrom1 {World A} s.
Arguments index0 {World A} s.
Arguments GetAccount {World} a address w.
Arguments SignTx {World} t tx acc nonce password w.
Arguments BroadcastTxWithCommit {World} t tx w.
Arguments broadcaster {World} d.
Arguments store {World} d.
Arguments signer {World} d.
Arguments store_GetAccount {World} d address s.
Arguments signer_SignTx {World} d tx acc nonce password s.
Arguments broadcaster_BroadcastTxWithCommit {World} d tx s.
Arguments scanLoop {World} d singleRunCost accounts readyAccounts shortAccounts s.
Arguments execLoop {World} EncryptPassword d shortAccounts distributor nonce readyAccounts s.
Arguments fundAccounts {World} EncryptPassword d accounts singleRunCost s.
Arguments Distribute {World} InitialTxCost EncryptPassword d accounts transactions s.

(** ** An in-memory ledger, for running the code on concrete inputs *)

Module Mock.

(** The ledger: the accounts by address. *)
Definition Ledger : Type := list (string * gnoland.GnoAccount).

Fixpoint lookup (address : string) (l : Ledger) : option gnoland.GnoAccount :=
  match l with
  | [] => None
  | (a, acc) :: l' => if String.eqb a address then Some acc else lookup address l'
  end.

(** A store that reads the ledger, a signer and a broadcaster that accept
    every transaction. *)
Definition mockStore : accountStore Ledger :=
  {| GetAccount := fun address w =>
       (match lookup address w with
        | Some acc => inr acc
        | None => inl (Go.errors_New "account not found")
        end, w) |}.

Definition mockSigner : txSigner Ledger :=
  {| SignTx := fun _ _ _ _ w => (inr ["signature"], w) |}.

Definition mockBroadcaster : txBroadcaster Ledger :=
  {| BroadcastTxWithCommit := fun _ w => (None, w) |}.

Definition mockDistributor : Distributor Ledger :=
  {| broadcaster := mockBroadcaster; store := mockStore; signer := mockSigner |}.

Definition addr (s : string) : crypto.Address := {| crypto.AddressString := s |}.

Definition key (s : string) : keys.Info :=
  {| keys.GetName := s; keys.GetAddress := addr s |}.

Definition acc (s : string) (coins : std.Coins) (sequence : Z)
  : string * gnoland.GnoAccount :=
  (s, {| gnoland.Address := addr s; gnoland.Coins := coins;
         gnoland.Sequence := sequence |}).

Definition ugnot (amount : Z) : std.Coin :=
  {| std.Denom := common.Denomination; std.Amount := amount |}.

Definition short (s : string) (missing : Z) : shortAccount :=
  {| account := key s; missingFunds := ugnot missing |}.

Definition start (l : Ledger) : State Ledger := {| world := l; trace := [] |}.

(** The scenario of the spec: a funding account with 1000, a required
    balance of 2000, one sub-account that is ready and two that miss 100
    and 2000. *)
Definition scenarioLedger : Ledger :=
  [acc "g1funder" 1000 7; acc "g1ready" 2000 0; acc "g1near" 1900 0;
   acc "g1empty" 0 0].

Definition scenarioAccounts : list keys.Info :=
  [key "g1funder"; key "g1ready"; key "g1empty"; key "g1near"].

(** Two sub-accounts that miss 600 and 700, a funding account with 1000. *)
Definition tightLedger : Ledger :=
  [acc "g1funder" 1000 0; acc "g1a" 400 0; acc "g1b" 300 0].

Definition tightAccounts : list keys.Info :=
  [key "g1funder"; key "g1a"; key "g1b"].

(** Every sub-account holds the required 2000. *)
Definition fundedLedger : Ledger :=
  [acc "g1funder" 1000 0; acc "g1a" 2000 0; acc "g1b" 2500 0].

Definition fundedAccounts : list keys.Info :=
  [key "g1funder"; key "g1a"; key "g1b"].

(** The scenario with a funding account that holds 50 only. *)
Definition poorLedger : Ledger :=
  [acc "g1funder" 50 7; acc "g1ready" 2000 0; acc "g1near" 1900 0;
   acc "g1empty" 0 0].

(** A list that names a sub-account the ledger does not have. *)
Definition ghostAccounts : list keys.Info :=
  [key "g1funder"; key "g1ready"; key "g1ghost"; key "g1near"].

(** The account the ledger holds for a key (an empty one when it holds
    none). *)
Definition held (l : Ledger) (a : keys.Info) : gnoland.GnoAccount :=
  match lookup (crypto.AddressString (keys.GetAddress a)) l with
  | Some account => account
  | None => {| gnoland.Address := keys.GetAddress a; gnoland.Coins := 0;
               gnoland.Sequence := 0 |}
  end.

End Mock.

(** ** Vocabulary of the statements *)

(** The smallest shortfall of a list of short accounts (0 for none). *)
Fixpoint minShortfall (l : list shortAccount) : Z :=
  match l with
  | [] => 0
  | [e] => std.Amount (missingFunds e)
  | e :: l' => Z.min (std.Amount (missingFunds e)) (minShortfall l')
  end.

(** The cost of funding every account of a list: shortfall plus fee, each. *)
Fixpoint totalCost (l : list shortAccount) : Z :=
  match l with
  | [] => 0
  | e :: l' =>
      std.Amount (missingFunds e) + std.Amount common.DefaultGasFee + totalCost l'
  end.

(** The sequence numbers of [n] consecutive signatures, the first one with
    [nonce]: each is the [uint64] successor of the one before. *)
Fixpoint nonceSeq (n : nat) (nonce : Z) : list Z :=
  match n with
  | O => []
  | S n' => nonce :: nonceSeq n' (Go.uint64 (nonce + 1))
  end.

(** The text of the address of a key, as the store is asked for it. *)
Abbreviation addressOf a := (crypto.AddressString (keys.GetAddress a)).

(** The addresses the store was asked for, in call order. *)
Fixpoint lookedUp (tr : list Event) : list string :=
  match tr with
  | [] => []
  | EvGetAccount address _ :: tr' => address :: lookedUp tr'
  | _ :: tr' => lookedUp tr'
  end.

(** Shortfalls in non-decreasing order. *)
Definition leMissingFunds (a b : shortAccount) : Prop :=
  std.Amount (missingFunds a) <= std.Amount (missingFunds b).

(** No recorded call of a trace failed. *)
Definition allOk (tr : list Event) : Prop :=
  Forall (fun e => eventError e = None) tr.

(** A panic of an index or slice expression. *)
Definition boundsPanic {A} (r : Res A) : bool :=
  match r with
  | Panic (Go.SliceBoundsOutOfRange _ _) => true
  | Panic (Go.IndexOutOfRange _ _) => true
  | _ => false
  end.

(** ** Vocabulary for the calls of the transfer loop *)

(** The transactions handed to the signer, in call order. *)
Fixpoint signRequests (tr : list Event) : list Tx :=
  match tr with
  | [] => []
  | EvSignTx tx _ _ _ _ :: tr' => tx :: signRequests tr'
  | _ :: tr' => signRequests tr'
  end.

(** The account and the password of each call to the signer. *)
Fixpoint signCredentials (tr : list Event) : list (gnoland.GnoAccount * string) :=
  match tr with
  | [] => []
  | EvSignTx _ acc _ password _ :: tr' => (acc, password) :: signCredentials tr'
  | _ :: tr' => signCredentials tr'
  end.

(** The transactions that came back signed. *)
Fixpoint signedTxs (tr : list Event) : list Tx :=
  match tr with
  | [] => []
  | EvSignTx _ _ _ _ (inr signed) :: tr' => signed :: signedTxs tr'
  | _ :: tr' => signedTxs tr'
  end.

(** The transactions handed to the broadcaster. *)
Fixpoint broadcastTxs (tr : list Event) : list Tx :=
  match tr with
  | [] => []
  | EvBroadcast tx _ :: tr' => tx :: broadcastTxs tr'
  | _ :: tr' => broadcastTxs tr'
  end.

(** The ways the transfer loop of lines 170-198 ends: it runs out of short
    accounts, the signer or the broadcaster fails, or package [std]
    panics. *)
Inductive ExecEnd : Type :=
| Done
| SignFailed (cause : Go.error)
| BroadcastFailed (cause : Go.error)
| Panicked.

(** The calls the transfer loop makes for a list of short accounts, starting
    with sequence number [nonce], and how it ends: one call to the signer
    and, when that succeeds, one to the broadcaster per short account, until
    a call fails. *)
Inductive Transfers (password : string) (distributor : gnoland.GnoAccount)
  : list shortAccount -> Z -> list Event -> ExecEnd -> Prop :=
| Transfers_done nonce :
    Transfers password distributor [] nonce [] Done
| Transfers_panic entry rest nonce :
    transferTx distributor entry = None ->
    Transfers password distributor (entry :: rest) nonce [] Panicked
| Transfers_sign_failed entry rest nonce tx cause :
    transferTx distributor entry = Some tx ->
    Transfers password distributor (entry :: rest) nonce
      [EvSignTx tx distributor nonce password (inl cause)] (SignFailed cause)
| Transfers_broadcast_failed entry rest nonce tx signatures cause :
    transferTx distributor entry = Some tx ->
    Transfers password distributor (entry :: rest) nonce
      [EvSignTx tx distributor nonce password
         (inr {| Msgs := Msgs tx; Fee := Fee tx; Signatures := signatures |});
       EvBroadcast {| Msgs := Msgs tx; Fee := Fee tx; Signatures := signatures |}
         (Some cause)]
      (BroadcastFailed cause)
| Transfers_step entry rest nonce tx signatures tr ending :
    transferTx distributor entry = Some tx ->
    Transfers password distributor rest (Go.uint64 (nonce + 1)) tr ending ->
    Transfers password distributor (entry :: rest) nonce
      (EvSignTx tx distributor nonce password
         (inr {| Msgs := Msgs tx; Fee := Fee tx; Signatures := signatures |})
       :: EvBroadcast {| Msgs := Msgs tx; Fee := Fee tx; Signatures := signatures |}
            None
       :: tr)
      ending.

(** What [fundAccounts] yields for each ending of the transfer loop. *)
Definition execResult (readyAccounts : list keys.Info)
  (shortAccounts : list shortAccount) (ending : ExecEnd) : Res GoResult :=
  match ending with
  | Done => Val (Some (readyAccounts ++ map account shortAccounts), None)
  | SignFailed cause =>
      Val (None, Some (Go.fmt_Errorf "unable to sign transaction, %w" cause))
  | BroadcastFailed cause =>
      Val (None, Some (Go.fmt_Errorf "unable to broadcast tx with commit, %w" cause))
  | Panicked => Panic Go.CoinPanic
  end.

(** The format of the error [fundAccounts] builds when the call [e] fails
    after the calls [pre], on a list with [subAccounts] entries after the
    first. *)
Definition failureFormat (subAccounts : nat) (pre : list Event) (e : Event)
  : string :=
  match e with
  | EvGetAccount _ _ =>
      if (length pre <? subAccounts)%nat
      then "unable to fetch sub-account, %w"
      else "unable to fetch distributor account, %w"
  | EvSignTx _ _ _ _ _ => "unable to sign transaction, %w"
  | EvBroadcast _ _ => "unable to broadcast tx with commit, %w"
  end.

(** The transfer of lines 172-181 for a short account, written out. *)
Definition transferOf (distributor : gnoland.GnoAccount) (entry : shortAccount)
  : Tx :=
  {| Msgs := [ {| bank.FromAddress := gnoland.GetAddress distributor;
                  bank.ToAddress := keys.GetAddress (account entry);
                  bank.Amount := std.Amount (missingFunds entry) |} ];
     Fee := {| std.GasWanted := 60000; std.GasFee := common.DefaultGasFee |};
     Signatures := [] |}.

(** The cost of funding one short account: its shortfall and the fee. *)
Definition costOf (entry : shortAccount) : Z :=
  std.Amount (missingFunds entry) + std.Amount common.DefaultGasFee.

(** * Properties *)

(** ** Arithmetic *)

Lemma int64_id (z : Z) :
  Go.MinInt64 <= z <= Go.MaxInt64 -> Go.int64 z = z.
Proof.
  unfold Go.MinInt64, Go.MaxInt64, Go.int64. intros H.
  rewrite Z.mod_small by lia. lia.
Qed.

(** ** [sort.Slice] *)

Section SortFacts.

Context {A : Type}.
Variables (less : A -> A -> bool) (le : A -> A -> Prop).
Hypothesis less_le : forall x y, less x y = true -> le x y.
Hypothesis not_less_le : forall x y, less x y = false -> le y x.

Lemma insertSorted_perm (x : A) (l : list A) :
  Permutation (insertSorted less x l) (x :: l).
Proof.
  induction l as [|y l IH]; simpl.
  - reflexivity.
  - destruct (less x y).
    + reflexivity.
    + rewrite IH. apply perm_swap.
Qed.

Lemma insertSorted_hd (x y : A) (l : list A) :
  le y x -> HdRel le y l -> HdRel le y (insertSorted less x l).
Proof.
  intros Hyx Hhd. destruct l as [|z l]; simpl.
  - constructor. exact Hyx.
  - destruct (less x z); constructor.
    + exact Hyx.
    + inversion Hhd; assumption.
Qed.

Lemma insertSorted_sorted (x : A) (l : list A) :
  Sorted le l -> Sorted le (insertSorted less x l).
Proof.
  induction 1 as [|y l Hs IH Hhd]; simpl.
  - repeat constructor.
  - destruct (less x y) eqn:E.
    + constructor.
      * constructor; assumption.
      * constructor. apply less_le. exact E.
    + constructor.
      * exact IH.
      * apply insertSorted_hd; [apply not_less_le; exact E | exact Hhd].
Qed.

Lemma fold_insert_perm (l acc : list A) :
  Permutation (fold_left (fun sorted x => insertSorted less x sorted) l acc)
              (acc ++ l).
Proof.
  revert acc. induction l as [|x l IH]; intros acc; simpl.
  - rewrite app_nil_r. reflexivity.
  - rewrite IH, insertSorted_perm. apply Permutation_middle.
Qed.

Lemma fold_insert_sorted (l acc : list A) :
  Sorted le acc ->
  Sorted le (fold_left (fun sorted x => insertSorted less x sorted) l acc).
Proof.
  revert acc. induction l as [|x l IH]; intros acc Hacc; simpl.
  - exact Hacc.
  - apply IH. apply insertSorted_sorted. exact Hacc.
Qed.

Lemma sort_Slice_perm (l : list A) : Permutation (sort_Slice less l) l.
Proof. unfold sort_Slice. apply (fold_insert_perm l []). Qed.

Lemma sort_Slice_sorted (l : list A) : Sorted le (sort_Slice less l).
Proof. unfold sort_Slice. apply fold_insert_sorted. constructor. Qed.

End SortFacts.

Lemma lessMissingFunds_le (x y : shortAccount) :
  lessMissingFunds x y = true -> leMissingFunds x y.
Proof.
  unfold lessMissingFunds, leMissingFunds, std.IsLT. intros H.
  apply Z.ltb_lt in H. lia.
Qed.

Lemma not_lessMissingFunds_le (x y : shortAccount) :
  lessMissingFunds x y = false -> leMissingFunds y x.
Proof.
  unfold lessMissingFunds, leMissingFunds, std.IsLT. intros H.
  apply Z.ltb_ge in H. exact H.
Qed.

Lemma sorted_short_perm (l : list shortAccount) :
  Permutation (sort_Slice lessMissingFunds l) l.
Proof. apply sort_Slice_perm. Qed.

Lemma sorted_short_sorted (l : list shortAccount) :
  Sorted leMissingFunds (sort_Slice lessMissingFunds l).
Proof.
  apply sort_Slice_sorted;
    [exact lessMissingFunds_le | exact not_lessMissingFunds_le].
Qed.

(** ** Traces *)

Lemma allOk_app (tr1 tr2 : list Event) : allOk tr1 -> allOk tr2 -> allOk (tr1 ++ tr2).
Proof. unfold allOk. intros. apply Forall_app. split; assumption. Qed.

Lemma signNonces_app (tr1 tr2 : list Event) :
  signNonces (tr1 ++ tr2) = signNonces tr1 ++ signNonces tr2.
Proof.
  induction tr1 as [|e tr1 IH]; simpl; [reflexivity|].
  destruct e; simpl; rewrite IH; reflexivity.
Qed.

Lemma transferTargets_app (tr1 tr2 : list Event) :
  transferTargets (tr1 ++ tr2) = transferTargets tr1 ++ transferTargets tr2.
Proof.
  induction tr1 as [|e tr1 IH]; simpl; [reflexivity|].
  destruct e; simpl; rewrite IH, ?app_assoc; reflexivity.
Qed.

Lemma lookups_no_signature (tr : list Event) :
  Forall (fun e => isGetAccount e = true) tr ->
  signNonces tr = [] /\ transferTargets tr = [] /\
  filter isSignTx tr = [] /\ filter isBroadcast tr = [].
Proof.
  induction 1 as [|e tr He _ IH]; simpl; [auto|].
  destruct e; simpl in *; try discriminate. exact IH.
Qed.

(** In a trace whose calls all succeeded but the last, a failed call is the
    last one. *)
Lemma failed_call_is_last (pre pre' post' : list Event) (e e' : Event)
  (cause' : Go.error) :
  allOk pre ->
  pre ++ [e] = pre' ++ e' :: post' ->
  eventError e' = Some cause' ->
  post' = [] /\ e' = e.
Proof.
  intros Hok Heq Herr.
  destruct post' as [|x post'] using rev_ind.
  - apply app_inj_tail in Heq. destruct Heq as [_ Heq]. auto.
  - clear IHpost'. exfalso.
    change (pre' ++ e' :: post' ++ [x]) with (pre' ++ (e' :: post') ++ [x]) in Heq.
    rewrite app_assoc in Heq. apply app_inj_tail in Heq. destruct Heq as [Heq _].
    subst pre. unfold allOk in Hok. apply Forall_app in Hok. destruct Hok as [_ Hok].
    inversion Hok as [|? ? He' _]; subst. congruence.
Qed.

Lemma allOk_no_failure (tr pre post : list Event) (e : Event) (cause : Go.error) :
  allOk tr -> tr = pre ++ e :: post -> eventError e = Some cause -> False.
Proof.
  intros Hok -> Herr. unfold allOk in Hok.
  apply Forall_app in Hok. destruct Hok as [_ Hok].
  inversion Hok; subst. congruence.
Qed.

(** ** Sequence numbers *)

Lemma nonceSeq_length (n : nat) (nonce : Z) : length (nonceSeq n nonce) = n.
Proof. revert nonce. induction n; intros; simpl; [reflexivity | now rewrite IHn]. Qed.


(** ** The smallest shortfall *)

Lemma minShortfall_le (l : list shortAccount) (e : shortAccount) :
  In e l -> minShortfall l <= std.Amount (missingFunds e).
Proof.
  induction l as [|x l IH]; intros Hin; [destruct Hin|].
  destruct l as [|y l].
  - destruct Hin as [->|[]]. simpl. lia.
  - change (minShortfall (x :: y :: l))
      with (Z.min (std.Amount (missingFunds x)) (minShortfall (y :: l))).
    destruct Hin as [->|Hin]; [lia|]. specialize (IH Hin). lia.
Qed.

Lemma minShortfall_attained (l : list shortAccount) :
  l <> [] -> exists e, In e l /\ std.Amount (missingFunds e) = minShortfall l.
Proof.
  induction l as [|x l IH]; intros Hne; [congruence|].
  destruct l as [|y l].
  - exists x. split; [left; reflexivity | reflexivity].
  - change (minShortfall (x :: y :: l))
      with (Z.min (std.Amount (missingFunds x)) (minShortfall (y :: l))).
    destruct IH as (e & Hin & He); [discriminate|].
    destruct (Z.le_ge_cases (std.Amount (missingFunds x)) (minShortfall (y :: l))).
    + exists x. split; [left; reflexivity | lia].
    + exists e. split; [right; exact Hin | lia].
Qed.

Lemma sorted_head_least (h : shortAccount) (t : list shortAccount) (e : shortAccount) :
  Sorted leMissingFunds (h :: t) -> In e (h :: t) -> leMissingFunds h e.
Proof.
  intros Hsorted Hin.
  apply Sorted_StronglySorted in Hsorted.
  - inversion Hsorted as [|? ? _ Hall]; subst.
    destruct Hin as [->|Hin]; [unfold leMissingFunds; lia|].
    rewrite Forall_forall in Hall. apply Hall. exact Hin.
  - intros x y z. unfold leMissingFunds. lia.
Qed.

(** The first entry of the sorted list misses the smallest amount. *)
Lemma sorted_head_is_min (l : list shortAccount) (h : shortAccount)
  (t : list shortAccount) :
  sort_Slice lessMissingFunds l = h :: t ->
  std.Amount (missingFunds h) = minShortfall l.
Proof.
  intros Heq.
  pose proof (sorted_short_perm l) as Hperm.
  pose proof (sorted_short_sorted l) as Hsorted.
  rewrite Heq in Hperm, Hsorted.
  assert (Hne : l <> []).
  { intros ->. apply Permutation_sym, Permutation_nil in Hperm. discriminate. }
  destruct (minShortfall_attained l Hne) as (e & Hin & He).
  assert (Hh : In h l) by (apply (Permutation_in _ Hperm); left; reflexivity).
  apply minShortfall_le in Hh.
  apply (Permutation_in _ (Permutation_sym Hperm)) in Hin.
  apply (sorted_head_least h t e Hsorted) in Hin. unfold leMissingFunds in Hin.
  lia.
Qed.

Lemma calls_without_lookup (tr : list Event) :
  Forall (fun e => isGetAccount e = false) tr -> lookedUp tr = [].
Proof.
  induction 1 as [|e tr He _ IH]; [reflexivity|].
  destruct e; simpl in *; try discriminate; exact IH.
Qed.

(** ** The allocation loop *)

(** The cost of one transfer, where it fits an [int64]. *)
Lemma transferCost_value (e : shortAccount) :
  0 < std.Amount (missingFunds e) ->
  std.Amount (missingFunds e) + std.Amount common.DefaultGasFee <= Go.MaxInt64 ->
  match std.Add common.DefaultGasFee (missingFunds e) with
  | Some sum => std.NewCoins sum
  | None => None
  end = Some (std.Amount (missingFunds e) + std.Amount common.DefaultGasFee).
Proof.
  intros Hpos Hfit. unfold std.Add, std.NewCoins.
  change (std.Amount common.DefaultGasFee) with 1 in *.
  unfold Go.MaxInt64, Go.MinInt64 in *.
  destruct (- 2 ^ 63 <=? 1 + std.Amount (missingFunds e)) eqn:E1;
    [|apply Z.leb_gt in E1; lia].
  destruct (1 + std.Amount (missingFunds e) <=? 2 ^ 63 - 1) eqn:E2;
    [|apply Z.leb_gt in E2; lia].
  cbn [andb std.Amount].
  destruct (1 + std.Amount (missingFunds e) =? 0) eqn:E3;
    [apply Z.eqb_eq in E3; lia|].
  destruct (1 + std.Amount (missingFunds e) <? 0) eqn:E4;
    [apply Z.ltb_lt in E4; lia|].
  f_equal. lia.
Qed.

Lemma allocLoop_head_unaffordable (h : shortAccount) (t : list shortAccount)
  (distributorBalance : std.Coins) (fundableIndex : nat) :
  0 < std.Amount (missingFunds h) ->
  std.Amount (missingFunds h) + std.Amount common.DefaultGasFee <= Go.MaxInt64 ->
  distributorBalance < std.Amount (missingFunds h) + std.Amount common.DefaultGasFee ->
  allocLoop (h :: t) distributorBalance fundableIndex
    = Some (distributorBalance, fundableIndex).
Proof.
  intros Hpos Hfit Hlow.
  pose proof (transferCost_value h Hpos Hfit) as Hcost.
  cbn [allocLoop].
  destruct (std.Add common.DefaultGasFee (missingFunds h)) as [sum|]; [|discriminate].
  rewrite Hcost. unfold std.IsAllLT.
  destruct (distributorBalance
            <? std.Amount (missingFunds h) + std.Amount common.DefaultGasFee) eqn:E;
    [reflexivity | apply Z.ltb_ge in E; lia].
Qed.

(** ** The loops and the function, for every store, signer and broadcaster *)

Section Properties.

Context {World : Type}.
Variable EncryptPassword : string.
Variable d : Distributor World.

(** The scan: what it leaves in the trace and what it returns. *)
Lemma scanLoop_shape (singleRunCost : std.Coin) (accounts : list keys.Info) :
  forall readyAccounts shortAccounts s out s',
    scanLoop d singleRunCost accounts readyAccounts shortAccounts s = (out, s') ->
    exists tr,
      trace s' = trace s ++ tr /\
      Forall (fun e => isGetAccount e = true) tr /\
      ((allOk tr /\
        lookedUp tr = map (fun a => addressOf a) accounts /\
        exists ready short,
          out = Val (ready, short) /\
          Permutation (ready ++ map account short)
            ((readyAccounts ++ map account shortAccounts) ++ accounts))
       \/
       (exists pre e cause,
          tr = pre ++ [e] /\ allOk pre /\ eventError e = Some cause /\
          out = Ret (None,
                     Some (Go.fmt_Errorf "unable to fetch sub-account, %w" cause)))).
Proof.
  induction accounts as [|a accounts IH]; intros ready short s out s' Hrun.
  - simpl in Hrun. unfold ret in Hrun. inversion Hrun; subst.
    exists []. split; [now rewrite app_nil_r|]. split; [constructor|].
    left. split; [constructor|]. split; [reflexivity|].
    exists ready, short. split; [reflexivity|]. now rewrite app_nil_r.
  - simpl in Hrun. unfold bind, store_GetAccount in Hrun.
    destruct (GetAccount (store d) (addressOf a) (world s)) as [[err|subAccount] w] eqn:Hget.
    + unfold return_ in Hrun. inversion Hrun; subst. simpl.
      exists [EvGetAccount (addressOf a) (inl err)].
      split; [reflexivity|]. split; [repeat constructor|].
      right. exists [], (EvGetAccount (addressOf a) (inl err)), err.
      split; [reflexivity|]. split; [constructor|]. split; reflexivity.
    + set (ev := EvGetAccount (addressOf a) (inr subAccount)) in *.
      assert (Hstep : forall ready1 short1,
                 scanLoop d singleRunCost accounts ready1 short1
                   {| world := w; trace := trace s ++ [ev] |} = (out, s') ->
                 Permutation ((ready1 ++ map account short1) ++ accounts)
                   ((ready ++ map account short) ++ a :: accounts) ->
                 exists tr,
                   trace s' = trace s ++ tr /\
                   Forall (fun e => isGetAccount e = true) tr /\
                   ((allOk tr /\
                     lookedUp tr = map (fun a => addressOf a) (a :: accounts) /\
                     exists ready' short',
                       out = Val (ready', short') /\
                       Permutation (ready' ++ map account short')
                         ((ready ++ map account short) ++ a :: accounts))
                    \/
                    (exists pre e cause,
                       tr = pre ++ [e] /\ allOk pre /\ eventError e = Some cause /\
                       out = Ret (None,
                                  Some (Go.fmt_Errorf "unable to fetch sub-account, %w"
                                          cause))))).
      { intros ready1 short1 Hrec Hperm.
        apply IH in Hrec. destruct Hrec as (tr & Htr & Hget' & Hcases).
        simpl in Htr. exists (ev :: tr). split; [|split].
        - rewrite Htr, <- app_assoc. reflexivity.
        - constructor; [reflexivity | exact Hget'].
        - destruct Hcases as [(Hok & Hlen & ready' & short' & Hout & Hp)
                             |(pre & e & cause & Heq & Hok & Herr & Hout)].
          + left. split; [|split].
            * constructor; [reflexivity | exact Hok].
            * simpl. now rewrite Hlen.
            * exists ready', short'. split; [exact Hout|].
              rewrite Hp. exact Hperm.
          + right. exists (ev :: pre), e, cause. subst tr.
            repeat split; try assumption.
            constructor; [reflexivity | exact Hok]. }
      destruct (std.AmountOf (gnoland.Coins subAccount) common.Denomination
                <? std.Amount singleRunCost).
      * apply Hstep in Hrun; [exact Hrun|].
        rewrite map_app. simpl.
        rewrite <- !app_assoc. simpl.
        apply Permutation_app_head. apply Permutation_app_head.
        reflexivity.
      * apply Hstep in Hrun; [exact Hrun|].
        rewrite <- !app_assoc. simpl.
        apply Permutation_app_head.
        apply Permutation_middle.
Qed.

(** The transfer loop: what it leaves in the trace and what it returns. *)
Lemma execLoop_shape (distributor : gnoland.GnoAccount)
  (shortAccounts : list shortAccount) :
  forall nonce readyAccounts s out s',
    execLoop EncryptPassword d shortAccounts distributor nonce readyAccounts s
      = (out, s') ->
    exists tr,
      trace s' = trace s ++ tr /\
      Forall (fun e => isGetAccount e = false) tr /\
      signNonces tr = nonceSeq (length (signNonces tr)) nonce /\
      (length (signNonces tr) <= length shortAccounts)%nat /\
      incl (transferTargets tr)
        (map (fun e => keys.GetAddress (account e)) shortAccounts) /\
      ((allOk tr /\
        (out = Val (readyAccounts ++ map account shortAccounts) /\
         length (signNonces tr) = length shortAccounts
         \/ out = Panic Go.CoinPanic))
       \/
       (exists pre e cause format,
          tr = pre ++ [e] /\ allOk pre /\ eventError e = Some cause /\
          out = Ret (None, Some (Go.fmt_Errorf format cause)))).
Proof.
  induction shortAccounts as [|entry shortAccounts IH];
    intros nonce ready s out s' Hrun.
  - simpl in Hrun. unfold ret in Hrun. inversion Hrun; subst.
    exists []. split; [now rewrite app_nil_r|]. split; [constructor|].
    split; [reflexivity|]. split; [simpl; lia|].
    split; [intros x Hx; exact Hx|].
    left. split; [constructor|]. left. split; [now rewrite app_nil_r | reflexivity].
  - simpl in Hrun. unfold bind at 1 in Hrun.
    destruct (transferTx distributor entry) as [tx|] eqn:Htx.
    2:{ simpl in Hrun. unfold panic in Hrun. inversion Hrun; subst.
        exists []. split; [now rewrite app_nil_r|]. split; [constructor|].
        split; [reflexivity|]. split; [simpl; lia|].
        split; [intros x Hx; destruct Hx|].
        left. split; [constructor|]. right. reflexivity. }
    assert (Htarget : txTargets tx = [keys.GetAddress (account entry)]).
    { unfold transferTx in Htx. destruct (std.NewCoins (missingFunds entry));
        inversion Htx; reflexivity. }
    simpl in Hrun. unfold bind at 1, signer_SignTx in Hrun.
    destruct (SignTx (signer d) tx distributor nonce EncryptPassword (world s))
      as [[err|signatures] w1] eqn:Hsign.
    + unfold return_ in Hrun. inversion Hrun; subst. simpl.
      set (ev := EvSignTx tx distributor nonce EncryptPassword (inl err)).
      exists [ev]. split; [reflexivity|]. split; [repeat constructor|].
      split; [reflexivity|]. split; [simpl; lia|].
      split.
      { simpl. rewrite Htarget. intros x Hx. simpl in Hx.
        destruct Hx as [<-|[]]. left. reflexivity. }
      right. exists [], ev, err, "unable to sign transaction, %w".
      split; [reflexivity|]. split; [constructor|]. split; reflexivity.
    + set (signed := {| Msgs := Msgs tx; Fee := Fee tx; Signatures := signatures |}) in *.
      set (ev1 := EvSignTx tx distributor nonce EncryptPassword (inr signed)) in *.
      assert (Htarget' : txTargets signed = [keys.GetAddress (account entry)])
        by exact Htarget.
      unfold bind at 1, broadcaster_BroadcastTxWithCommit in Hrun. simpl in Hrun.
      destruct (BroadcastTxWithCommit (broadcaster d) signed w1)
        as [[err|] w2] eqn:Hsend.
      * unfold return_ in Hrun. inversion Hrun; subst s' out. simpl.
        set (ev2 := EvBroadcast signed (Some err)).
        exists [ev1; ev2]. split; [now rewrite <- app_assoc|].
        split; [repeat constructor|].
        split; [reflexivity|]. split; [simpl; lia|].
        split.
        { simpl. rewrite Htarget, Htarget'. intros x Hx. simpl in Hx.
          destruct Hx as [<-|[<-|[]]]; left; reflexivity. }
        right. exists [ev1], ev2, err, "unable to broadcast tx with commit, %w".
        split; [reflexivity|]. split; [repeat constructor|]. split; reflexivity.
      * set (ev2 := EvBroadcast signed None) in *.
        apply IH in Hrun.
        destruct Hrun as (tr & Htr & Hno & Hnonces & Hlen & Htargets & Hcases).
        simpl in Htr. exists (ev1 :: ev2 :: tr).
        split; [rewrite Htr, <- !app_assoc; reflexivity|].
        split; [repeat constructor; exact Hno|].
        split; [simpl; rewrite <- Hnonces; reflexivity|].
        split; [simpl; lia|].
        split.
        { simpl. rewrite Htarget, Htarget'. intros x Hx. simpl in Hx.
          destruct Hx as [<-|[<-|Hx]]; [left; reflexivity ..|].
          right. apply Htargets. exact Hx. }
        destruct Hcases as [(Hok & Hout)|(pre & e & cause & format & Heq & Hok & Herr & Hout)].
        -- left. split; [repeat constructor; exact Hok|].
           destruct Hout as [(Hout & Hn)|Hout]; [left|right; exact Hout].
           split; [|simpl; now rewrite Hn].
           rewrite Hout, <- app_assoc. reflexivity.
        -- right. exists (ev1 :: ev2 :: pre), e, cause, format. subst tr.
           split; [reflexivity|]. split; [repeat constructor; exact Hok|].
           split; assumption.
Qed.


(** [fundAccounts] on a list with a first entry, phase by phase. *)
Lemma fundAccounts_cons (first : keys.Info) (subAccounts : list keys.Info)
  (singleRunCost : std.Coin) (s : State World) :
  fundAccounts EncryptPassword d (first :: subAccounts) singleRunCost s =
  match scanLoop d singleRunCost subAccounts [] [] s with
  | (Val buckets, s1) =>
      match GetAccount (store d) (addressOf first) (world s1) with
      | (inl err, w2) =>
          (Val (None,
                Some (Go.fmt_Errorf "unable to fetch distributor account, %w" err)),
           {| world := w2;
              trace := trace s1 ++ [EvGetAccount (addressOf first) (inl err)] |})
      | (inr distributor, w2) =>
          let s2 := {| world := w2;
                       trace := trace s1 ++
                                [EvGetAccount (addressOf first) (inr distributor)] |} in
          let shortAccounts := sort_Slice lessMissingFunds (snd buckets) in
          match allocLoop shortAccounts (gnoland.Coins distributor) 0%nat with
          | None => (Panic Go.CoinPanic, s2)
          | Some alloc =>
              if Nat.eqb (snd alloc) 0
              then (Val (None, Some (Go.errors_New "insufficient distributor funds")),
                    s2)
              else
                match execLoop EncryptPassword d shortAccounts distributor
                        (gnoland.Sequence distributor) (fst buckets) s2 with
                | (Val readyAccounts, s3) => (Val (Some readyAccounts, None), s3)
                | (Ret r, s3) => (Val r, s3)
                | (Panic p, s3) => (Panic p, s3)
                end
          end
      end
  | (Ret r, s1) => (Val r, s1)
  | (Panic p, s1) => (Panic p, s1)
  end.
Proof.
  unfold fundAccounts, func, bind. simpl.
  destruct (scanLoop d singleRunCost subAccounts [] [] s) as [[buckets|r|p] s1];
    try reflexivity.
  unfold store_GetAccount.
  destruct (GetAccount (store d) (addressOf first) (world s1))
    as [[err|distributor] w2]; [reflexivity|].
  destruct (allocLoop (sort_Slice lessMissingFunds (snd buckets))
              (gnoland.Coins distributor) 0%nat) as [alloc|]; simpl; [|reflexivity].
  destruct (Nat.eqb (snd alloc) 0); [reflexivity|].
  destruct (execLoop EncryptPassword d (sort_Slice lessMissingFunds (snd buckets))
              distributor (gnoland.Sequence distributor) (fst buckets) _)
    as [[readyAccounts|r|p] s3]; reflexivity.
Qed.

(** The whole run on a list with a first entry: the calls it makes and the
    ways it can end. *)
Lemma fundAccounts_shape (first : keys.Info) (subAccounts : list keys.Info)
  (singleRunCost : std.Coin) (s : State World) out s' :
  fundAccounts EncryptPassword d (first :: subAccounts) singleRunCost s = (out, s') ->
  exists tr,
    trace s' = trace s ++ tr /\
    incl (transferTargets tr) (map keys.GetAddress subAccounts) /\
    ((allOk tr /\
      ((exists funded, out = Val (Some funded, None) /\ incl funded subAccounts)
       \/ out = Val (None, Some (Go.errors_New "insufficient distributor funds"))
       \/ out = Panic Go.CoinPanic))
     \/
     (exists pre e cause format,
        tr = pre ++ [e] /\ allOk pre /\ eventError e = Some cause /\
        out = Val (None, Some (Go.fmt_Errorf format cause)))).
Proof.
  intros Hrun. rewrite fundAccounts_cons in Hrun.
  destruct (scanLoop d singleRunCost subAccounts [] [] s) as [scanned s1] eqn:Hscan.
  apply scanLoop_shape in Hscan.
  destruct Hscan as (tr1 & Htr1 & Hlook1 & Hcases).
  destruct (lookups_no_signature tr1 Hlook1) as (_ & Htargets1 & _).
  destruct Hcases as [(Hok1 & _ & ready & short & -> & Hperm)
                     |(pre & e & cause & Heq & Hok & Herr & ->)].
  2:{ inversion Hrun; subst. exists (pre ++ [e]).
      split; [exact Htr1|]. split; [rewrite Htargets1; intros x []|].
      right. exists pre, e, cause, "unable to fetch sub-account, %w".
      repeat split; assumption. }
  simpl in Hperm, Hrun.
  assert (Hready : incl ready subAccounts).
  { intros x Hx. apply (Permutation_in _ Hperm). apply in_or_app. left. exact Hx. }
  assert (Hshort : incl (map account (sort_Slice lessMissingFunds short)) subAccounts).
  { intros x Hx. apply (Permutation_in _ Hperm). apply in_or_app. right.
    apply (Permutation_in x (Permutation_map account (sorted_short_perm short))).
    exact Hx. }
  destruct (GetAccount (store d) (addressOf first) (world s1))
    as [[err|distributor] w2] eqn:Hget.
  - inversion Hrun; subst. simpl.
    exists (tr1 ++ [EvGetAccount (addressOf first) (inl err)]).
    split; [rewrite Htr1, <- app_assoc; reflexivity|].
    split; [rewrite transferTargets_app, Htargets1; intros x []|].
    right. exists tr1, (EvGetAccount (addressOf first) (inl err)), err,
             "unable to fetch distributor account, %w".
    repeat split; assumption.
  - set (ev := EvGetAccount (addressOf first) (inr distributor)) in *.
    assert (Hok2 : allOk (tr1 ++ [ev])).
    { apply allOk_app; [exact Hok1 | repeat constructor]. }
    assert (Htargets2 : transferTargets (tr1 ++ [ev]) = []).
    { rewrite transferTargets_app, Htargets1. reflexivity. }
    destruct (allocLoop (sort_Slice lessMissingFunds short)
                (gnoland.Coins distributor) 0%nat) as [alloc|].
    2:{ inversion Hrun; subst. simpl. exists (tr1 ++ [ev]).
        split; [rewrite Htr1, <- app_assoc; reflexivity|].
        split; [rewrite Htargets2; intros x []|].
        left. split; [exact Hok2|]. right. right. reflexivity. }
    destruct (Nat.eqb (snd alloc) 0).
    { inversion Hrun; subst. simpl. exists (tr1 ++ [ev]).
      split; [rewrite Htr1, <- app_assoc; reflexivity|].
      split; [rewrite Htargets2; intros x []|].
      left. split; [exact Hok2|]. right. left. reflexivity. }
    destruct (execLoop EncryptPassword d (sort_Slice lessMissingFunds short)
                distributor (gnoland.Sequence distributor) ready _)
      as [res s3] eqn:Hexec.
    apply execLoop_shape in Hexec.
    destruct Hexec as (tr3 & Htr3 & _ & _ & _ & Htargets3 & Hcases3).
    simpl in Htr3.
    assert (Htrace : trace s3 = trace s ++ (tr1 ++ [ev]) ++ tr3).
    { rewrite Htr3, Htr1, <- !app_assoc. reflexivity. }
    assert (Htargets : incl (transferTargets ((tr1 ++ [ev]) ++ tr3))
                         (map keys.GetAddress subAccounts)).
    { rewrite transferTargets_app, Htargets2. simpl.
      intros x Hx. apply Htargets3 in Hx.
      rewrite <- map_map in Hx. apply in_map_iff in Hx.
      destruct Hx as (a & <- & Ha). apply in_map. apply Hshort. exact Ha. }
    exists ((tr1 ++ [ev]) ++ tr3).
    destruct Hcases3 as [(Hok3 & [(-> & _)| ->])
                        |(pre & e & cause & format & Heq & Hok3 & Herr & ->)];
      inversion Hrun; subst s'; subst out;
      (split; [exact Htrace|]); (split; [exact Htargets|]).
    + left. split; [apply allOk_app; assumption|]. left.
      eexists. split; [reflexivity|].
      apply incl_app; assumption.
    + left. split; [apply allOk_app; assumption|]. right. right. reflexivity.
    + right. exists ((tr1 ++ [ev]) ++ pre), e, cause, format. subst tr3.
      split; [now rewrite app_assoc|]. split; [apply allOk_app; assumption|].
      split; [assumption | reflexivity].
Qed.

(** C10. [fundAccounts], and [Distribute] which calls it, are defined on
    a non-empty accounts list only.  On the empty list the slice expression
    [accounts[1:]] of line 104 panics before any collaborator is called:
    no error is returned, the trace and the world are as they were.  On a
    list with a first entry neither [accounts[1:]] nor [accounts[0]]
    panics. *)
Theorem empty_accounts_list_panics (InitialTxCost singleRunCost : std.Coin)
  (transactions : Z) (s : State World) :
  fundAccounts EncryptPassword d [] singleRunCost s
    = (Panic (Go.SliceBoundsOutOfRange 1 0), s) /\
  (exists p,
     Distribute InitialTxCost EncryptPassword d [] transactions s = (Panic p, s)) /\
  (forall first subAccounts,
     boundsPanic
       (fst (fundAccounts EncryptPassword d (first :: subAccounts) singleRunCost s))
     = false /\
     boundsPanic
       (fst (Distribute InitialTxCost EncryptPassword d (first :: subAccounts)
               transactions s))
     = false).
Proof.
  assert (Hfund : forall c first subAccounts,
             boundsPanic
               (fst (fundAccounts EncryptPassword d (first :: subAccounts) c s))
             = false).
  { intros c first subAccounts.
    destruct (fundAccounts EncryptPassword d (first :: subAccounts) c s)
      as [out s'] eqn:Hrun.
    apply fundAccounts_shape in Hrun.
    destruct Hrun as (tr & _ & _ & [(_ & [(funded & -> & _)|[-> | ->]])
                                   |(pre & e & cause & format & _ & _ & _ & ->)]);
      reflexivity. }
  split; [reflexivity|]. split.
  - unfold Distribute, bind.
    destruct (calculateRuntimeCosts InitialTxCost (Go.int64 transactions)) as [c|];
      simpl; eexists; reflexivity.
  - intros first subAccounts. split; [apply Hfund|].
    unfold Distribute, bind.
    destruct (calculateRuntimeCosts InitialTxCost (Go.int64 transactions)) as [c|];
      simpl; [|reflexivity].
    specialize (Hfund c first subAccounts).
    destruct (fundAccounts EncryptPassword d (first :: subAccounts) c s)
      as [[r|r|p] s']; simpl in *; try reflexivity. exact Hfund.
Qed.

(** C9. Every failure of a collaborator aborts the run: when a call to the
    store (a sub-account or the distributor account), to the signer or to
    the broadcaster returns an error, that call is the last one the run
    makes, and [fundAccounts] returns a nil list together with an error
    that wraps ([%w]) the error of the call.  In no case does
    [fundAccounts] return a list together with an error. *)
Theorem failure_aborts_without_partial_result :
  (forall accounts singleRunCost s out s' pre e post cause,
      fundAccounts EncryptPassword d accounts singleRunCost s = (out, s') ->
      trace s' = trace s ++ pre ++ e :: post ->
      eventError e = Some cause ->
      post = [] /\
      exists format, out = Val (None, Some (Go.fmt_Errorf format cause))) /\
  (forall accounts singleRunCost s list err s',
      fundAccounts EncryptPassword d accounts singleRunCost s
        = (Val (list, Some err), s') ->
      list = None).
Proof.
  split.
  - intros accounts c s out s' pre' e' post' cause' Hrun Htrace Herr.
    destruct accounts as [|first subAccounts].
    { inversion Hrun; subst. exfalso.
      rewrite <- (app_nil_r (trace s')) in Htrace at 1.
      apply app_inv_head in Htrace. destruct pre'; discriminate. }
    apply fundAccounts_shape in Hrun.
    destruct Hrun as (tr & Htr & _ & Hcases).
    rewrite Htr in Htrace. apply app_inv_head in Htrace.
    destruct Hcases as [(Hok & _)|(pre & e & cause & format & Heq & Hok & He & ->)].
    + exfalso. exact (allOk_no_failure _ _ _ _ _ Hok Htrace Herr).
    + subst tr.
      destruct (failed_call_is_last _ _ _ _ _ _ Hok Htrace Herr) as [-> ->].
      split; [reflexivity|]. exists format.
      rewrite He in Herr. inversion Herr. reflexivity.
  - intros accounts c s list err s' Hrun.
    destruct accounts as [|first subAccounts]; [discriminate|].
    apply fundAccounts_shape in Hrun.
    destruct Hrun as (tr & _ & _ & [(_ & [(funded & Hout & _)|[Hout | Hout]])
                                   |(pre & e & cause & format & _ & _ & _ & Hout)]);
      inversion Hout; reflexivity.
Qed.

(** C6. The first entry of the accounts list, the funding account, takes
    no part in the evaluation: the two buckets of the scan hold the entries
    after the first, each of them once, and nothing else; the scan looks up
    the addresses of those entries only; every transfer handed to the
    signer or the broadcaster pays to the address of one of those entries.
    So, unless the funding account is listed a second time, it is in
    neither bucket and no transfer pays to it. *)
Theorem funding_account_is_not_evaluated (first : keys.Info)
  (subAccounts : list keys.Info) (singleRunCost : std.Coin) (s : State World) :
  (forall ready short s1,
      scanLoop d singleRunCost subAccounts [] [] s = (Val (ready, short), s1) ->
      Permutation (ready ++ map account short) subAccounts /\
      (exists tr, trace s1 = trace s ++ tr /\
                  lookedUp tr = map (fun a => addressOf a) subAccounts) /\
      (~ In first subAccounts ->
       ~ In first ready /\ ~ In first (map account short))) /\
  (forall out s',
      fundAccounts EncryptPassword d (first :: subAccounts) singleRunCost s
        = (out, s') ->
      exists tr,
        trace s' = trace s ++ tr /\
        incl (transferTargets tr) (map keys.GetAddress subAccounts) /\
        (~ In (keys.GetAddress first) (map keys.GetAddress subAccounts) ->
         ~ In (keys.GetAddress first) (transferTargets tr))).
Proof.
  split.
  - intros ready short s1 Hscan. apply scanLoop_shape in Hscan.
    destruct Hscan as (tr & Htr & _ & [(_ & Hlook & ready' & short' & Hout & Hperm)
                                      |(pre & e & cause & _ & _ & _ & Hout)]);
      [|discriminate].
    inversion Hout; subst ready' short'. simpl in Hperm.
    split; [exact Hperm|]. split; [exists tr; split; assumption|].
    intros Hnot. split; intros Hin; apply Hnot;
      apply (Permutation_in _ Hperm); apply in_or_app; [left | right]; exact Hin.
  - intros out s' Hrun. apply fundAccounts_shape in Hrun.
    destruct Hrun as (tr & Htr & Htargets & _).
    exists tr. split; [exact Htr|]. split; [exact Htargets|].
    intros Hnot Hin. apply Hnot. apply Htargets. exact Hin.
Qed.

(** C4. When the scan leaves at least one short account and the balance of
    the distributor account is below the smallest shortfall plus the fixed
    fee, [fundAccounts] returns the error "insufficient distributor funds"
    with a nil list, and neither the signer nor the broadcaster is called.
    The smallest shortfall is positive and, with the fee, fits an
    [int64]. *)
Theorem insufficient_funds_without_transfer (first : keys.Info)
  (subAccounts : list keys.Info) (singleRunCost : std.Coin) (s s1 : State World)
  (ready : list keys.Info) (short : list shortAccount)
  (distributor : gnoland.GnoAccount) (w2 : World) :
  scanLoop d singleRunCost subAccounts [] [] s = (Val (ready, short), s1) ->
  short <> [] ->
  GetAccount (store d) (addressOf first) (world s1) = (inr distributor, w2) ->
  0 < minShortfall short ->
  minShortfall short + std.Amount common.DefaultGasFee <= Go.MaxInt64 ->
  gnoland.Coins distributor
    < minShortfall short + std.Amount common.DefaultGasFee ->
  exists tr,
    fundAccounts EncryptPassword d (first :: subAccounts) singleRunCost s
      = (Val (None, Some (Go.errors_New "insufficient distributor funds")),
         {| world := w2; trace := trace s ++ tr |}) /\
    filter isSignTx tr = [] /\ filter isBroadcast tr = [].
Proof.
  intros Hscan Hne Hget Hpos Hfit Hlow.
  rewrite fundAccounts_cons, Hscan, Hget. simpl.
  apply scanLoop_shape in Hscan.
  destruct Hscan as (tr1 & Htr1 & Hlook1 & _).
  destruct (lookups_no_signature tr1 Hlook1) as (_ & _ & Hsign1 & Hsend1).
  exists (tr1 ++ [EvGetAccount (addressOf first) (inr distributor)]).
  rewrite !filter_app, Hsign1, Hsend1. simpl.
  split; [|split; reflexivity].
  destruct (sort_Slice lessMissingFunds short) as [|h t] eqn:Hsorted.
  { exfalso. apply Hne. apply Permutation_nil.
    rewrite <- Hsorted. apply sorted_short_perm. }
  apply sorted_head_is_min in Hsorted.
  rewrite allocLoop_head_unaffordable by (rewrite Hsorted; assumption).
  simpl. rewrite Htr1, <- app_assoc. reflexivity.
Qed.

(** The scan over a store that answers every lookup of the sub-accounts
    from an unchanged ledger: the buckets, in closed form. *)
Lemma scanLoop_readonly (singleRunCost : std.Coin)
  (held : keys.Info -> gnoland.GnoAccount) (w : World)
  (subAccounts : list keys.Info) :
  (forall a, In a subAccounts ->
             GetAccount (store d) (addressOf a) w = (inr (held a), w)) ->
  forall readyAccounts shortAccounts tr0,
    scanLoop d singleRunCost subAccounts readyAccounts shortAccounts
      {| world := w; trace := tr0 |}
    = (Val (readyAccounts ++
            filter (fun a => negb (gnoland.Coins (held a) <? std.Amount singleRunCost))
              subAccounts,
            shortAccounts ++
            map (fun a =>
                   {| account := a;
                      missingFunds :=
                        {| std.Denom := common.Denomination;
                           std.Amount :=
                             Go.int64 (std.Amount singleRunCost
                                       - gnoland.Coins (held a)) |} |})
              (filter (fun a => gnoland.Coins (held a) <? std.Amount singleRunCost)
                 subAccounts)),
       {| world := w;
          trace := tr0 ++ map (fun a => EvGetAccount (addressOf a) (inr (held a)))
                            subAccounts |}).
Proof.
  induction subAccounts as [|a subAccounts IH]; intros Hstore ready short tr0.
  - simpl. unfold ret. rewrite !app_nil_r. reflexivity.
  - cbn [scanLoop]. unfold bind, store_GetAccount. cbn [world trace].
    rewrite (Hstore a) by (left; reflexivity).
    unfold std.AmountOf. cbn [filter map].
    destruct (gnoland.Coins (held a) <? std.Amount singleRunCost) eqn:E;
      cbn [negb map]; rewrite IH by (intros b Hb; apply Hstore; right; exact Hb);
      rewrite <- !app_assoc; reflexivity.
Qed.

(** C5. For a required balance R ([singleRunCost.Amount], an [int64]) and
    sub-accounts whose balances C the store reports (non-negative
    [int64]s), the scan puts a sub-account in [readyAccounts] if and only
    if C >= R; otherwise it puts it in [shortAccounts] with missing funds
    exactly R - C; and the missing funds of every short account are
    above zero. *)
Theorem scan_ready_iff_balance_covers (singleRunCost : std.Coin)
  (held : keys.Info -> gnoland.GnoAccount) (w : World) (tr0 : list Event)
  (subAccounts : list keys.Info) :
  (forall a, In a subAccounts ->
             GetAccount (store d) (addressOf a) w = (inr (held a), w)) ->
  (forall a, In a subAccounts ->
             0 <= std.AmountOf (gnoland.Coins (held a)) common.Denomination
               <= Go.MaxInt64) ->
  Go.MinInt64 <= std.Amount singleRunCost <= Go.MaxInt64 ->
  exists ready short s1,
    scanLoop d singleRunCost subAccounts [] [] {| world := w; trace := tr0 |}
      = (Val (ready, short), s1) /\
    (forall a,
        In a ready <->
        In a subAccounts /\
        std.AmountOf (gnoland.Coins (held a)) common.Denomination
          >= std.Amount singleRunCost) /\
    (forall e,
        In e short <->
        In (account e) subAccounts /\
        std.AmountOf (gnoland.Coins (held (account e))) common.Denomination
          < std.Amount singleRunCost /\
        missingFunds e =
          {| std.Denom := common.Denomination;
             std.Amount :=
               std.Amount singleRunCost
               - std.AmountOf (gnoland.Coins (held (account e)))
                   common.Denomination |}) /\
    Forall (fun e => 0 < std.Amount (missingFunds e)) short.
Proof.
  intros Hstore Hbal HR. unfold std.AmountOf in *.
  rewrite (scanLoop_readonly singleRunCost held w subAccounts Hstore [] [] tr0).
  cbn [app]. do 3 eexists. split; [reflexivity|].
  assert (Hexact : forall a, In a subAccounts ->
              gnoland.Coins (held a) < std.Amount singleRunCost ->
              Go.int64 (std.Amount singleRunCost - gnoland.Coins (held a))
              = std.Amount singleRunCost - gnoland.Coins (held a)).
  { intros a Ha Hlt. apply int64_id. specialize (Hbal a Ha).
    unfold Go.MinInt64, Go.MaxInt64 in *. lia. }
  split; [|split].
  - intros a. rewrite filter_In, negb_true_iff, Z.ltb_ge. intuition lia.
  - intros e. rewrite in_map_iff. split.
    + intros (a & <- & Ha). apply filter_In in Ha. destruct Ha as [Ha Hlt].
      apply Z.ltb_lt in Hlt. cbn [account missingFunds].
      split; [exact Ha|]. split; [exact Hlt|].
      rewrite (Hexact a Ha Hlt). reflexivity.
    + intros (Ha & Hlt & Hm). exists (account e). split.
      * destruct e as [a m]. cbn [account missingFunds] in *. subst m.
        rewrite (Hexact a Ha Hlt). reflexivity.
      * apply filter_In. split; [exact Ha | apply Z.ltb_lt; exact Hlt].
  - apply Forall_forall. intros e He. apply in_map_iff in He.
    destruct He as (a & <- & Ha). apply filter_In in Ha. destruct Ha as [Ha Hlt].
    apply Z.ltb_lt in Hlt. cbn [missingFunds std.Amount].
    rewrite (Hexact a Ha Hlt). lia.
Qed.


End Properties.

(** ** The allocation loop, as the code runs it *)

(** The loop hands back the balance it was given: nothing is taken off it
    between two iterations. *)
Lemma allocLoop_balance_unchanged (shortAccounts : list shortAccount) :
  forall distributorBalance fundableIndex balance' index',
    allocLoop shortAccounts distributorBalance fundableIndex = Some (balance', index') ->
    balance' = distributorBalance.
Proof.
  induction shortAccounts as [|entry shortAccounts IH];
    intros balance index balance' index' Hrun.
  - inversion Hrun. reflexivity.
  - cbn [allocLoop] in Hrun.
    destruct (std.Add common.DefaultGasFee (missingFunds entry)) as [sum|];
      [|discriminate].
    destruct (std.NewCoins sum) as [transferCost|]; [|discriminate].
    destruct (std.IsAllLT balance transferCost).
    + inversion Hrun. reflexivity.
    + destruct (std.Sub balance transferCost); [|discriminate].
      apply IH in Hrun. exact Hrun.
Qed.

(** ** Runs on the in-memory ledger *)

(** C1. The scenario of the spec, run on the code: a distributor balance of
    1000, a fee of 1, sub-accounts that miss 100 and 2000 (and one that is
    ready).  The allocation loop counts one fundable account, but the
    transfer loop of line 170 ranges over all of [shortAccounts]: two
    transfers are signed and broadcast, with sequence numbers 7 and 8, and
    both short accounts are returned as funded. *)
Theorem scenario_transfers_to_every_short_account :
  let run := fundAccounts "pw" Mock.mockDistributor Mock.scenarioAccounts
               (Mock.ugnot 2000) (Mock.start Mock.scenarioLedger) in
  allocLoop [Mock.short "g1near" 100; Mock.short "g1empty" 2000] 1000 0%nat
    = Some (1000, 1%nat) /\
  fst run = Val (Some [Mock.key "g1ready"; Mock.key "g1near"; Mock.key "g1empty"],
                 None) /\
  signNonces (trace (snd run)) = [7; 8] /\
  transferTargets (filter isBroadcast (trace (snd run)))
    = [Mock.addr "g1near"; Mock.addr "g1empty"].
Proof. vm_compute. repeat split; reflexivity. Qed.

(** C2. The allocation loop on a balance of 1000 and two short accounts that
    miss 600 and 700: the value of [distributorBalance.Sub(transferCost)] is
    dropped, each cost is compared with the full 1000, and the loop counts
    both accounts although their costs add up to 1302. *)
Theorem allocation_counts_beyond_the_balance :
  let shortAccounts := [Mock.short "g1a" 600; Mock.short "g1b" 700] in
  sort_Slice lessMissingFunds shortAccounts = shortAccounts /\
  allocLoop shortAccounts 1000 0%nat = Some (1000, 2%nat) /\
  totalCost (firstn 2 shortAccounts) = 1302 /\
  signNonces
    (trace (snd (fundAccounts "pw" Mock.mockDistributor Mock.tightAccounts
                   (Mock.ugnot 1000) (Mock.start Mock.tightLedger))))
    = [0; 1].
Proof. vm_compute. repeat split; reflexivity. Qed.

(** C3. Every sub-account holds the required balance: the scan leaves no
    short account, [fundableIndex] stays 0, and the check of line 159
    returns "insufficient distributor funds" with a nil list instead of the
    ready accounts. *)
Theorem all_ready_reports_insufficient_funds :
  let s := Mock.start Mock.fundedLedger in
  fst (scanLoop Mock.mockDistributor (Mock.ugnot 2000) (tl Mock.fundedAccounts) [] [] s)
    = Val ([Mock.key "g1a"; Mock.key "g1b"], []) /\
  fst (fundAccounts "pw" Mock.mockDistributor Mock.fundedAccounts (Mock.ugnot 2000) s)
    = Val (None, Some (Go.errors_New "insufficient distributor funds")) /\
  filter isSignTx
    (trace (snd (fundAccounts "pw" Mock.mockDistributor Mock.fundedAccounts
                   (Mock.ugnot 2000) s))) = [].
Proof. vm_compute. repeat split; reflexivity. Qed.

(** ** The general statements at work on the in-memory ledger *)

(** C4 on the ledger whose funding account holds 50: the smallest shortfall
    is 100. *)
Lemma insufficient_funds_without_transfer_witness :
  exists tr,
    fundAccounts "pw" Mock.mockDistributor Mock.scenarioAccounts (Mock.ugnot 2000)
      (Mock.start Mock.poorLedger)
    = (Val (None, Some (Go.errors_New "insufficient distributor funds")),
       {| world := Mock.poorLedger; trace := [] ++ tr |}) /\
    filter isSignTx tr = [] /\ filter isBroadcast tr = [].
Proof.
  apply (insufficient_funds_without_transfer "pw" Mock.mockDistributor
           (Mock.key "g1funder")
           [Mock.key "g1ready"; Mock.key "g1empty"; Mock.key "g1near"]
           (Mock.ugnot 2000) (Mock.start Mock.poorLedger)
           (snd (scanLoop Mock.mockDistributor (Mock.ugnot 2000)
                   [Mock.key "g1ready"; Mock.key "g1empty"; Mock.key "g1near"]
                   [] [] (Mock.start Mock.poorLedger)))
           [Mock.key "g1ready"]
           [{| account := Mock.key "g1empty"; missingFunds := Mock.ugnot 2000 |};
            {| account := Mock.key "g1near"; missingFunds := Mock.ugnot 100 |}]
           (snd (Mock.acc "g1funder" 50 7)) Mock.poorLedger).
  - reflexivity.
  - discriminate.
  - reflexivity.
  - reflexivity.
  - vm_compute. discriminate.
  - reflexivity.
Defined.

(** C5 on the scenario ledger, required balance 2000. *)
Lemma scan_ready_iff_balance_covers_witness :
  exists ready short s1,
    scanLoop Mock.mockDistributor (Mock.ugnot 2000)
      [Mock.key "g1ready"; Mock.key "g1empty"; Mock.key "g1near"] [] []
      (Mock.start Mock.scenarioLedger) = (Val (ready, short), s1) /\
    (In (Mock.key "g1ready") ready <->
     In (Mock.key "g1ready")
       [Mock.key "g1ready"; Mock.key "g1empty"; Mock.key "g1near"] /\
     2000 >= 2000) /\
    Forall (fun e => 0 < std.Amount (missingFunds e)) short.
Proof.
  destruct (scan_ready_iff_balance_covers Mock.mockDistributor (Mock.ugnot 2000)
              (Mock.held Mock.scenarioLedger) Mock.scenarioLedger []
              [Mock.key "g1ready"; Mock.key "g1empty"; Mock.key "g1near"])
    as (ready & short & s1 & Hrun & Hready & _ & Hpos).
  - intros a Ha. simpl in Ha.
    destruct Ha as [<-|[<-|[<-|[]]]]; reflexivity.
  - intros a Ha. simpl in Ha.
    destruct Ha as [<-|[<-|[<-|[]]]]; vm_compute; split; discriminate.
  - vm_compute. split; discriminate.
  - exists ready, short, s1. split; [exact Hrun|]. split; [|exact Hpos].
    exact (Hready (Mock.key "g1ready")).
Defined.

(** C6 on the scenario: the funding account is in neither bucket, and no
    transfer of the run pays to it. *)
Lemma funding_account_is_not_evaluated_witness :
  (~ In (Mock.key "g1funder") [Mock.key "g1ready"] /\
   ~ In (Mock.key "g1funder")
       (map account [Mock.short "g1empty" 2000; Mock.short "g1near" 100])) /\
  exists tr,
    trace (snd (fundAccounts "pw" Mock.mockDistributor Mock.scenarioAccounts
                  (Mock.ugnot 2000) (Mock.start Mock.scenarioLedger))) = [] ++ tr /\
    ~ In (Mock.addr "g1funder") (transferTargets tr).
Proof.
  destruct (funding_account_is_not_evaluated "pw" Mock.mockDistributor
              (Mock.key "g1funder")
              [Mock.key "g1ready"; Mock.key "g1empty"; Mock.key "g1near"]
              (Mock.ugnot 2000) (Mock.start Mock.scenarioLedger))
    as [Hscan Hfund].
  split.
  - destruct (Hscan [Mock.key "g1ready"]
                [Mock.short "g1empty" 2000; Mock.short "g1near" 100]
                (snd (scanLoop Mock.mockDistributor (Mock.ugnot 2000)
                        [Mock.key "g1ready"; Mock.key "g1empty"; Mock.key "g1near"]
                        [] [] (Mock.start Mock.scenarioLedger)))
                eq_refl) as (_ & _ & Hnot).
    apply Hnot. simpl. intros [H|[H|[H|[]]]]; discriminate H.
  - destruct (Hfund _ _ (surjective_pairing _)) as (tr & Htr & _ & Hnot).
    exists tr. split; [exact Htr|].
    apply Hnot. simpl. intros [H|[H|[H|[]]]]; discriminate H.
Defined.


(** C9 on a list that names an account the ledger does not have: the lookup
    fails, no other call follows, and the error returned wraps "account not
    found". *)
Lemma failure_aborts_without_partial_result_witness :
  @nil Event = [] /\
  exists format,
    fst (fundAccounts "pw" Mock.mockDistributor Mock.ghostAccounts (Mock.ugnot 2000)
           (Mock.start Mock.scenarioLedger))
    = Val (None, Some (Go.fmt_Errorf format (Go.errors_New "account not found"))).
Proof.
  apply (proj1 (failure_aborts_without_partial_result "pw" Mock.mockDistributor)
           Mock.ghostAccounts (Mock.ugnot 2000) (Mock.start Mock.scenarioLedger)
           _
           (snd (fundAccounts "pw" Mock.mockDistributor Mock.ghostAccounts
                   (Mock.ugnot 2000) (Mock.start Mock.scenarioLedger)))
           [EvGetAccount "g1ready" (inr (snd (Mock.acc "g1ready" 2000 0)))]
           (EvGetAccount "g1ghost" (inl (Go.errors_New "account not found")))
           [] (Go.errors_New "account not found")).
  - apply surjective_pairing.
  - reflexivity.
  - reflexivity.
Defined.

(** * Further properties of the code *)

(** ** Observers of a trace *)

Lemma signRequests_app (tr1 tr2 : list Event) :
  signRequests (tr1 ++ tr2) = signRequests tr1 ++ signRequests tr2.
Proof.
  induction tr1 as [|e tr1 IH]; simpl; [reflexivity|].
  destruct e; simpl; rewrite IH; reflexivity.
Qed.

Lemma signCredentials_app (tr1 tr2 : list Event) :
  signCredentials (tr1 ++ tr2) = signCredentials tr1 ++ signCredentials tr2.
Proof.
  induction tr1 as [|e tr1 IH]; simpl; [reflexivity|].
  destruct e; simpl; rewrite IH; reflexivity.
Qed.

Lemma signedTxs_app (tr1 tr2 : list Event) :
  signedTxs (tr1 ++ tr2) = signedTxs tr1 ++ signedTxs tr2.
Proof.
  induction tr1 as [|e tr1 IH]; simpl; [reflexivity|].
  destruct e as [| ? ? ? ? [|] |]; simpl; rewrite IH; reflexivity.
Qed.

Lemma broadcastTxs_app (tr1 tr2 : list Event) :
  broadcastTxs (tr1 ++ tr2) = broadcastTxs tr1 ++ broadcastTxs tr2.
Proof.
  induction tr1 as [|e tr1 IH]; simpl; [reflexivity|].
  destruct e; simpl; rewrite IH; reflexivity.
Qed.

Lemma lookedUp_app (tr1 tr2 : list Event) :
  lookedUp (tr1 ++ tr2) = lookedUp tr1 ++ lookedUp tr2.
Proof.
  induction tr1 as [|e tr1 IH]; simpl; [reflexivity|].
  destruct e; simpl; rewrite IH; reflexivity.
Qed.

(** A trace of lookups holds no call to signer or broadcaster. *)
Lemma lookups_only (tr : list Event) :
  Forall (fun e => isGetAccount e = true) tr ->
  signRequests tr = [] /\ signCredentials tr = [] /\ signedTxs tr = [] /\
  broadcastTxs tr = [] /\ length (lookedUp tr) = length tr.
Proof.
  induction 1 as [|e tr He _ IH]; simpl; [auto 6|].
  destruct e; simpl in *; try discriminate.
  destruct IH as (H1 & H2 & H3 & H4 & H5). rewrite H5. auto 6.
Qed.

(** ** The transaction of a transfer *)

Lemma transferTx_value (distributor : gnoland.GnoAccount) (entry : shortAccount)
  (tx : Tx) :
  transferTx distributor entry = Some tx -> tx = transferOf distributor entry.
Proof.
  unfold transferTx, transferOf, std.NewCoins, std.NewFee. intros H.
  destruct (std.Amount (missingFunds entry) =? 0) eqn:E0.
  - apply Z.eqb_eq in E0. inversion H. rewrite E0. reflexivity.
  - destruct (std.Amount (missingFunds entry) <? 0); inversion H. reflexivity.
Qed.

(** ** The calls of the transfer loop *)

Lemma Transfers_calls (password : string) (distributor : gnoland.GnoAccount)
  (l : list shortAccount) (nonce : Z) (tr : list Event) (ending : ExecEnd) :
  Transfers password distributor l nonce tr ending ->
  Forall (fun e => isGetAccount e = false) tr /\
  broadcastTxs tr = signedTxs tr /\
  (exists n, (n <= length l)%nat /\
             signRequests tr = map (transferOf distributor) (firstn n l) /\
             signCredentials tr = repeat (distributor, password) n /\
             (ending = Done -> n = length l /\ length (signedTxs tr) = n) /\
             (length (signedTxs tr) <= n <= S (length (signedTxs tr)))%nat).
Proof.
  induction 1 as [nonce
                 |entry rest nonce Htx
                 |entry rest nonce tx cause Htx
                 |entry rest nonce tx signatures cause Htx
                 |entry rest nonce tx signatures tr ending Htx Hrest IH].
  - split; [constructor|]. split; [reflexivity|].
    exists 0%nat. simpl. repeat split; auto.
  - split; [constructor|]. split; [reflexivity|].
    exists 0%nat. simpl. repeat split; auto; try lia; discriminate.
  - apply transferTx_value in Htx. subst tx.
    split; [repeat constructor|]. split; [reflexivity|].
    exists 1%nat. simpl. repeat split; auto; try lia; discriminate.
  - apply transferTx_value in Htx. subst tx.
    split; [repeat constructor|]. split; [reflexivity|].
    exists 1%nat. simpl. repeat split; auto; try lia; discriminate.
  - apply transferTx_value in Htx. subst tx.
    destruct IH as (Hno & Hsame & n & Hn & Hreq & Hcred & Hdone & Hcount).
    split; [repeat constructor; exact Hno|].
    split; [simpl; rewrite Hsame; reflexivity|].
    exists (S n). simpl. rewrite Hreq, Hcred.
    repeat split; try lia; try reflexivity.
    + destruct (Hdone H) as [-> _]. reflexivity.
    + destruct (Hdone H) as [_ ->]. reflexivity.
Qed.

(** Where a failed call stands among the calls of the transfer loop. *)
Lemma Transfers_failure (password : string) (distributor : gnoland.GnoAccount)
  (l : list shortAccount) (nonce : Z) (tr : list Event) (ending : ExecEnd) :
  Transfers password distributor l nonce tr ending ->
  match ending with
  | Done | Panicked => allOk tr
  | SignFailed cause =>
      exists pre e, tr = pre ++ [e] /\ allOk pre /\ isSignTx e = true /\
                    eventError e = Some cause
  | BroadcastFailed cause =>
      exists pre e, tr = pre ++ [e] /\ allOk pre /\ isBroadcast e = true /\
                    eventError e = Some cause
  end.
Proof.
  induction 1 as [nonce
                 |entry rest nonce Htx
                 |entry rest nonce tx cause Htx
                 |entry rest nonce tx signatures cause Htx
                 |entry rest nonce tx signatures tr ending Htx Hrest IH].
  - constructor.
  - constructor.
  - eexists [], _. repeat split. constructor.
  - eexists [_], _. repeat split. repeat constructor.
  - destruct ending.
    + repeat constructor. exact IH.
    + destruct IH as (pre & e & -> & Hok & He & Herr).
      eexists (_ :: _ :: pre), e. repeat split; try assumption.
      repeat constructor. exact Hok.
    + destruct IH as (pre & e & -> & Hok & He & Herr).
      eexists (_ :: _ :: pre), e. repeat split; try assumption.
      repeat constructor. exact Hok.
    + repeat constructor. exact IH.
Qed.

(** ** What the allocation loop counts *)

Lemma filter_length_perm {A} (f : A -> bool) (l l' : list A) :
  Permutation l l' -> length (filter f l) = length (filter f l').
Proof.
  induction 1 as [|x l l' _ IH|x y l|l l' l'' _ IH1 _ IH2]; simpl.
  - reflexivity.
  - destruct (f x); simpl; rewrite IH; reflexivity.
  - destruct (f x), (f y); reflexivity.
  - rewrite IH1. exact IH2.
Qed.

Lemma allocLoop_sorted_count (l : list shortAccount) :
  forall (distributorBalance : std.Coins) (fundableIndex : nat),
    Sorted leMissingFunds l ->
    Forall (fun e => 0 < std.Amount (missingFunds e) /\ costOf e <= Go.MaxInt64) l ->
    allocLoop l distributorBalance fundableIndex
    = Some (distributorBalance,
            Nat.add fundableIndex
              (length (filter (fun e => costOf e <=? distributorBalance) l))).
Proof.
  induction l as [|h t IH]; intros bal n Hsorted Hrange.
  - simpl. rewrite Nat.add_0_r. reflexivity.
  - inversion Hrange as [|? ? [Hpos Hfit] Hrange']; subst.
    pose proof (transferCost_value h Hpos Hfit) as Hcost.
    cbn [allocLoop filter].
    destruct (std.Add common.DefaultGasFee (missingFunds h)) as [sum|];
      [|discriminate].
    rewrite Hcost. unfold std.IsAllLT. fold (costOf h).
    destruct (bal <? costOf h) eqn:E.
    + apply Z.ltb_lt in E.
      replace (costOf h <=? bal) with false by (symmetry; apply Z.leb_gt; exact E).
      assert (Hnone : filter (fun e => costOf e <=? bal) t = []).
      { assert (Hall : forall e, In e t -> (costOf e <=? bal) = false).
        { intros e He. apply Z.leb_gt.
          assert (Hle : leMissingFunds h e)
            by (apply (sorted_head_least h t e Hsorted); right; exact He).
          unfold leMissingFunds in Hle. unfold costOf in *. lia. }
        clear - Hall. induction t as [|x t IHt]; [reflexivity|].
        simpl. rewrite (Hall x) by (left; reflexivity).
        apply IHt. intros e He. apply Hall. right. exact He. }
      rewrite Hnone. simpl. rewrite Nat.add_0_r. reflexivity.
    + apply Z.ltb_ge in E.
      replace (costOf h <=? bal) with true by (symmetry; apply Z.leb_le; exact E).
      unfold std.Sub.
      replace (bal - costOf h <? 0) with false by (symmetry; apply Z.ltb_ge; lia).
      rewrite IH; [|inversion Hsorted; assumption | exact Hrange'].
      simpl. f_equal. f_equal. lia.
Qed.

Lemma allocLoop_of_sorted_short (short : list shortAccount)
  (distributorBalance : std.Coins) :
  Forall (fun e => 0 < std.Amount (missingFunds e) /\ costOf e <= Go.MaxInt64) short ->
  allocLoop (sort_Slice lessMissingFunds short) distributorBalance 0%nat
  = Some (distributorBalance,
          length (filter (fun e => costOf e <=? distributorBalance) short)).
Proof.
  intros Hrange.
  rewrite allocLoop_sorted_count.
  - rewrite (filter_length_perm _ _ _ (sorted_short_perm short)). reflexivity.
  - apply sorted_short_sorted.
  - apply (Permutation_Forall (Permutation_sym (sorted_short_perm short))).
    exact Hrange.
Qed.

(** No short account is individually affordable exactly when there is none,
    or the balance is below the smallest cost. *)
Lemma none_affordable_iff (short : list shortAccount) (balance : Z) :
  length (filter (fun e => costOf e <=? balance) short) = 0%nat <->
  short = [] \/ balance < minShortfall short + std.Amount common.DefaultGasFee.
Proof.
  split.
  - intros Hlen. destruct short as [|h t]; [left; reflexivity|]. right.
    destruct (minShortfall_attained (h :: t)) as (e & Hin & He); [discriminate|].
    rewrite <- He.
    destruct (costOf e <=? balance) eqn:E.
    + exfalso.
      assert (Hf : In e (filter (fun e => costOf e <=? balance) (h :: t)))
        by (apply filter_In; split; assumption).
      destruct (filter (fun e => costOf e <=? balance) (h :: t));
        [destruct Hf | discriminate].
    + apply Z.leb_gt in E. exact E.
  - intros [->|Hlow]; [reflexivity|].
    assert (Hnil : filter (fun e => costOf e <=? balance) short = []).
    { destruct (filter (fun e => costOf e <=? balance) short) as [|x l] eqn:Hf;
        [reflexivity|]. exfalso.
      assert (Hx : In x (filter (fun e => costOf e <=? balance) short))
        by (rewrite Hf; left; reflexivity).
      apply filter_In in Hx. destruct Hx as [Hin Hle].
      apply Z.leb_le in Hle. apply minShortfall_le in Hin.
      unfold costOf in Hle. lia. }
    rewrite Hnil. reflexivity.
Qed.

Lemma in_firstn {A} (n : nat) (l : list A) (x : A) :
  In x (firstn n l) -> In x l.
Proof.
  intros Hin. rewrite <- (firstn_skipn n l). apply in_or_app. left. exact Hin.
Qed.

(** ** The run, case by case *)

Section Coverage.

Context {World : Type}.
Variable EncryptPassword : string.
Variable d : Distributor World.

(** The transfer loop makes the calls of [Transfers]. *)
Lemma execLoop_transfers (distributor : gnoland.GnoAccount)
  (shortAccounts : list shortAccount) :
  forall nonce readyAccounts s out s',
    execLoop EncryptPassword d shortAccounts distributor nonce readyAccounts s
      = (out, s') ->
    exists tr ending,
      trace s' = trace s ++ tr /\
      Transfers EncryptPassword distributor shortAccounts nonce tr ending /\
      match out with
      | Val funded => execResult readyAccounts shortAccounts ending = Val (Some funded, None)
      | Ret r => execResult readyAccounts shortAccounts ending = Val r
      | Panic p => execResult readyAccounts shortAccounts ending = Panic p
      end.
Proof.
  induction shortAccounts as [|entry shortAccounts IH];
    intros nonce ready s out s' Hrun.
  - simpl in Hrun. unfold ret in Hrun. inversion Hrun; subst.
    exists [], Done. split; [now rewrite app_nil_r|]. split; [constructor|].
    simpl. rewrite app_nil_r. reflexivity.
  - simpl in Hrun. unfold bind at 1 in Hrun.
    destruct (transferTx distributor entry) as [tx|] eqn:Htx.
    2:{ simpl in Hrun. unfold panic in Hrun. inversion Hrun; subst.
        exists [], Panicked. split; [now rewrite app_nil_r|].
        split; [constructor; exact Htx | reflexivity]. }
    simpl in Hrun. unfold bind at 1, signer_SignTx in Hrun.
    destruct (SignTx (signer d) tx distributor nonce EncryptPassword (world s))
      as [[err|signatures] w1] eqn:Hsign.
    + unfold return_ in Hrun. inversion Hrun; subst. simpl.
      eexists _, (SignFailed err). split; [reflexivity|].
      split; [apply Transfers_sign_failed; exact Htx | reflexivity].
    + unfold bind at 1, broadcaster_BroadcastTxWithCommit in Hrun. simpl in Hrun.
      destruct (BroadcastTxWithCommit (broadcaster d) _ w1) as [[err|] w2] eqn:Hsend.
      * unfold return_ in Hrun. inversion Hrun; subst s' out. simpl.
        eexists _, (BroadcastFailed err). split; [rewrite <- app_assoc; reflexivity|].
        split; [apply Transfers_broadcast_failed; exact Htx | reflexivity].
      * apply IH in Hrun. destruct Hrun as (tr & ending & Htr & Htransfers & Hout).
        simpl in Htr.
        eexists (_ :: _ :: tr), ending.
        split; [rewrite Htr, <- !app_assoc; reflexivity|].
        split; [apply Transfers_step; [exact Htx | exact Htransfers]|].
        destruct out, ending; simpl in *; try discriminate; try exact Hout;
          rewrite <- app_assoc in Hout; exact Hout.
Qed.

(** The scan asks the store for the sub-accounts in list order and stops at
    the first lookup that fails. *)
Lemma scanLoop_lookups (singleRunCost : std.Coin) (accounts : list keys.Info) :
  forall readyAccounts shortAccounts s out s',
    scanLoop d singleRunCost accounts readyAccounts shortAccounts s = (out, s') ->
    exists tr,
      trace s' = trace s ++ tr /\
      lookedUp tr = firstn (length tr) (map (fun a => addressOf a) accounts) /\
      match out with
      | Val _ => length tr = length accounts
      | Ret _ => (1 <= length tr <= length accounts)%nat
      | Panic _ => False
      end.
Proof.
  induction accounts as [|a accounts IH]; intros ready short s out s' Hrun.
  - simpl in Hrun. unfold ret in Hrun. inversion Hrun; subst.
    exists []. split; [now rewrite app_nil_r|]. split; reflexivity.
  - simpl in Hrun. unfold bind, store_GetAccount in Hrun.
    destruct (GetAccount (store d) (addressOf a) (world s)) as [[err|subAccount] w].
    + unfold return_ in Hrun. inversion Hrun; subst. simpl.
      eexists [_]. split; [reflexivity|]. split; [reflexivity|]. simpl. lia.
    + assert (Hstep : forall ready1 short1,
                 scanLoop d singleRunCost accounts ready1 short1
                   {| world := w;
                      trace := trace s ++ [EvGetAccount (addressOf a) (inr subAccount)] |}
                 = (out, s') ->
                 exists tr,
                   trace s' = trace s ++ tr /\
                   lookedUp tr
                   = firstn (length tr) (map (fun a => addressOf a) (a :: accounts)) /\
                   match out with
                   | Val _ => length tr = length (a :: accounts)
                   | Ret _ => (1 <= length tr <= length (a :: accounts))%nat
                   | Panic _ => False
                   end).
      { intros ready1 short1 Hrec. apply IH in Hrec.
        destruct Hrec as (tr & Htr & Hlook & Hout). simpl in Htr.
        eexists (_ :: tr). split; [rewrite Htr, <- app_assoc; reflexivity|].
        split; [simpl; rewrite Hlook; reflexivity|].
        destruct out; simpl; lia. }
      destruct (std.AmountOf (gnoland.Coins subAccount) common.Denomination
                <? std.Amount singleRunCost); eapply Hstep; exact Hrun.
Qed.
(** The run after a scan that succeeded and a lookup of the distributor
    account that succeeded: package [std] panics in the allocation loop, no
    account is fundable, or the transfer loop runs over the sorted short
    accounts. *)
Lemma fundAccounts_after_lookup (first : keys.Info) (subAccounts : list keys.Info)
  (singleRunCost : std.Coin) (s s1 : State World) (ready : list keys.Info)
  (short : list shortAccount) (distributor : gnoland.GnoAccount) (w2 : World)
  out s' :
  scanLoop d singleRunCost subAccounts [] [] s = (Val (ready, short), s1) ->
  GetAccount (store d) (addressOf first) (world s1) = (inr distributor, w2) ->
  fundAccounts EncryptPassword d (first :: subAccounts) singleRunCost s = (out, s') ->
  let sorted := sort_Slice lessMissingFunds short in
  let ev := EvGetAccount (addressOf first) (inr distributor) in
  (allocLoop sorted (gnoland.Coins distributor) 0%nat = None /\
   out = Panic Go.CoinPanic /\ trace s' = trace s1 ++ [ev])
  \/
  (exists balance,
      allocLoop sorted (gnoland.Coins distributor) 0%nat = Some (balance, 0%nat) /\
      out = Val (None, Some (Go.errors_New "insufficient distributor funds")) /\
      trace s' = trace s1 ++ [ev])
  \/
  (exists balance n tr ending,
      allocLoop sorted (gnoland.Coins distributor) 0%nat = Some (balance, S n) /\
      trace s' = trace s1 ++ ev :: tr /\
      Transfers EncryptPassword distributor sorted (gnoland.Sequence distributor)
        tr ending /\
      out = execResult ready sorted ending).
Proof.
  intros Hscan Hget Hrun sorted ev.
  rewrite fundAccounts_cons, Hscan, Hget in Hrun. cbn [fst snd] in Hrun.
  fold sorted in Hrun. fold ev in Hrun.
  destruct (allocLoop sorted (gnoland.Coins distributor) 0%nat) as [[balance n]|].
  2:{ left. inversion Hrun. auto. }
  right. destruct n as [|n]; cbn [snd Nat.eqb] in Hrun.
  - left. exists balance. inversion Hrun. auto.
  - right.
    destruct (execLoop EncryptPassword d sorted distributor
                (gnoland.Sequence distributor) ready _) as [res s3] eqn:Hexec.
    apply execLoop_transfers in Hexec.
    destruct Hexec as (tr & ending & Htr & Htransfers & Hres).
    cbn [trace] in Htr.
    exists balance, n, tr, ending. split; [reflexivity|].
    assert (Hs : s' = s3) by (destruct res; inversion Hrun; reflexivity).
    subst s3. split; [rewrite Htr, <- app_assoc; reflexivity|].
    split; [exact Htransfers|].
    destruct res; inversion Hrun; subst out; symmetry; exact Hres.
Qed.

(** Every run on a list with a first entry: the scan fails, or the lookup of
    the distributor account fails, or the run goes on as above. *)
Lemma fundAccounts_run (first : keys.Info) (subAccounts : list keys.Info)
  (singleRunCost : std.Coin) (s : State World) out s' :
  fundAccounts EncryptPassword d (first :: subAccounts) singleRunCost s = (out, s') ->
  (exists pre e cause,
      trace s' = trace s ++ pre ++ [e] /\
      Forall (fun e => isGetAccount e = true) (pre ++ [e]) /\
      allOk pre /\ eventError e = Some cause /\
      (length pre < length subAccounts)%nat /\
      lookedUp (pre ++ [e])
      = firstn (S (length pre)) (map (fun a => addressOf a) subAccounts) /\
      out = Val (None,
                 Some (Go.fmt_Errorf "unable to fetch sub-account, %w" cause)))
  \/
  (exists ready short s1 tr1,
      scanLoop d singleRunCost subAccounts [] [] s = (Val (ready, short), s1) /\
      trace s1 = trace s ++ tr1 /\
      Forall (fun e => isGetAccount e = true) tr1 /\
      allOk tr1 /\ length tr1 = length subAccounts /\
      lookedUp tr1 = map (fun a => addressOf a) subAccounts /\
      Permutation (ready ++ map account short) subAccounts /\
      ((exists err w2,
           GetAccount (store d) (addressOf first) (world s1) = (inl err, w2) /\
           trace s' = trace s1 ++ [EvGetAccount (addressOf first) (inl err)] /\
           out = Val (None,
                      Some (Go.fmt_Errorf "unable to fetch distributor account, %w"
                              err)))
       \/
       (exists distributor w2,
           GetAccount (store d) (addressOf first) (world s1) = (inr distributor, w2)))).
Proof.
  intros Hrun.
  destruct (scanLoop d singleRunCost subAccounts [] [] s) as [scanned s1] eqn:Hscan.
  pose proof (scanLoop_shape d _ _ _ _ _ _ _ Hscan)
    as (tr1 & Htr1 & Hlook1 & Hcases).
  pose proof (scanLoop_lookups _ _ _ _ _ _ _ Hscan) as (tr1' & Htr1' & Hlooked & Hlen).
  assert (tr1' = tr1) by (rewrite Htr1 in Htr1'; apply app_inv_head in Htr1'; auto).
  subst tr1'.
  destruct Hcases as [(Hok1 & Hlooked1 & ready & short & -> & Hperm)
                     |(pre & e & cause & -> & Hok & Herr & ->)].
  - right. exists ready, short, s1, tr1.
    split; [reflexivity|]. split; [exact Htr1|]. split; [exact Hlook1|].
    split; [exact Hok1|]. split; [exact Hlen|]. split; [exact Hlooked1|].
    split; [exact Hperm|].
    rewrite fundAccounts_cons, Hscan in Hrun.
    destruct (GetAccount (store d) (addressOf first) (world s1))
      as [[err|distributor] w2].
    + left. exists err, w2. inversion Hrun. auto.
    + right. exists distributor, w2. reflexivity.
  - left. rewrite fundAccounts_cons, Hscan in Hrun. inversion Hrun; subst.
    rewrite length_app in Hlen, Hlooked. simpl in Hlen, Hlooked.
    rewrite Nat.add_1_r in Hlooked.
    exists pre, e, cause. repeat split; try assumption. lia.
Qed.

(** A run that returns a list. *)
Lemma success_details (first : keys.Info) (subAccounts : list keys.Info)
  (singleRunCost : std.Coin) (s s1 : State World) (ready : list keys.Info)
  (short : list shortAccount) (distributor : gnoland.GnoAccount) (w2 : World)
  funded err s' :
  scanLoop d singleRunCost subAccounts [] [] s = (Val (ready, short), s1) ->
  GetAccount (store d) (addressOf first) (world s1) = (inr distributor, w2) ->
  fundAccounts EncryptPassword d (first :: subAccounts) singleRunCost s
    = (Val (Some funded, err), s') ->
  err = None /\
  funded = ready ++ map account (sort_Slice lessMissingFunds short) /\
  short <> [] /\
  exists tr,
    trace s' = trace s1 ++ EvGetAccount (addressOf first) (inr distributor) :: tr /\
    allOk tr /\
    length (signRequests tr) = length short /\
    length (broadcastTxs tr) = length short.
Proof.
  intros Hscan Hget Hrun.
  destruct (fundAccounts_after_lookup _ _ _ _ _ _ _ _ _ _ _ Hscan Hget Hrun)
    as [(_ & Hout & _)|[(balance & _ & Hout & _)
                       |(balance & n & tr & ending & Halloc & Htr & Htransfers & Hout)]];
    try discriminate.
  destruct ending; try discriminate. inversion Hout; subst.
  split; [reflexivity|]. split; [reflexivity|].
  split.
  { intros ->. discriminate Halloc. }
  exists tr. split; [exact Htr|].
  pose proof (Transfers_failure _ _ _ _ _ _ Htransfers) as Hok. simpl in Hok.
  split; [exact Hok|].
  destruct (Transfers_calls _ _ _ _ _ _ Htransfers)
    as (_ & Hsame & k & _ & Hreq & _ & Hdone & _).
  destruct (Hdone eq_refl) as [-> Hsigned].
  rewrite (Permutation_length (sorted_short_perm short)) in Hsigned.
  split.
  - rewrite Hreq, length_map, firstn_all.
    apply Permutation_length, sorted_short_perm.
  - rewrite Hsame. exact Hsigned.
Qed.

(** X2. When [fundAccounts] returns a list, the error is nil and the list
    holds every entry of [accounts[1:]], each once: the ready ones and every
    short one.  No call of the run failed, at least one transfer was signed,
    and as many transactions were broadcast as were signed. *)
Theorem success_returns_every_sub_account (first : keys.Info)
  (subAccounts : list keys.Info) (singleRunCost : std.Coin) (s : State World)
  funded err s' :
  fundAccounts EncryptPassword d (first :: subAccounts) singleRunCost s
    = (Val (Some funded, err), s') ->
  err = None /\
  Permutation funded subAccounts /\
  exists tr,
    trace s' = trace s ++ tr /\
    allOk tr /\
    (1 <= length (signRequests tr))%nat /\
    length (broadcastTxs tr) = length (signRequests tr).
Proof.
  intros Hrun.
  destruct (fundAccounts_run _ _ _ _ _ _ Hrun)
    as [(pre & e & cause & _ & _ & _ & _ & _ & _ & Hout)
       |(ready & short & s1 & tr1 & Hscan & Htr1 & Hlook1 & Hok1 & _ & _ & Hperm
         & [(err' & w2 & _ & _ & Hout)|(distributor & w2 & Hget)])];
    try discriminate.
  destruct (success_details _ _ _ _ _ _ _ _ _ _ _ _ Hscan Hget Hrun)
    as (-> & -> & Hne & tr & Htr & Hok & Hsigns & Hsends).
  split; [reflexivity|]. split.
  - rewrite <- Hperm. apply Permutation_app_head.
    apply Permutation_map, sorted_short_perm.
  - exists (tr1 ++ EvGetAccount (addressOf first) (inr distributor) :: tr).
    destruct (lookups_only tr1 Hlook1) as (Hreq1 & _ & _ & Hsend1 & _).
    split; [rewrite Htr, Htr1, <- app_assoc; reflexivity|].
    split; [apply allOk_app; [exact Hok1 | constructor; [reflexivity | exact Hok]]|].
    rewrite signRequests_app, broadcastTxs_app, Hreq1, Hsend1. simpl.
    rewrite Hsigns, Hsends. split; [|reflexivity].
    destruct short; [congruence | simpl; lia].
Qed.

(** The run after a scan and a lookup of the distributor account that
    succeeded, told through the list [sort.Slice] leaves: a list in
    non-decreasing order of missing funds that holds the short accounts of
    the scan.  The allocation loop and the transfer loop both range over
    it. *)
Lemma run_on_sorted_list (first : keys.Info) (subAccounts : list keys.Info)
  (singleRunCost : std.Coin) (s s1 : State World) (ready : list keys.Info)
  (short : list shortAccount) (distributor : gnoland.GnoAccount) (w2 : World)
  out s' :
  scanLoop d singleRunCost subAccounts [] [] s = (Val (ready, short), s1) ->
  GetAccount (store d) (addressOf first) (world s1) = (inr distributor, w2) ->
  fundAccounts EncryptPassword d (first :: subAccounts) singleRunCost s = (out, s') ->
  exists sorted,
    Sorted leMissingFunds sorted /\
    Permutation sorted short /\
    match allocLoop sorted (gnoland.Coins distributor) 0%nat with
    | None => out = Panic Go.CoinPanic
    | Some (_, O) =>
        out = Val (None, Some (Go.errors_New "insufficient distributor funds"))
    | Some (_, S _) => exists ending, out = execResult ready sorted ending
    end /\
    exists transfers n,
      trace s' = trace s1
                 ++ EvGetAccount (addressOf first) (inr distributor) :: transfers /\
      (n <= length short)%nat /\
      signRequests transfers = map (transferOf distributor) (firstn n sorted) /\
      signCredentials transfers = repeat (distributor, EncryptPassword) n /\
      (forall funded err,
          out = Val (Some funded, err) ->
          funded = ready ++ map account sorted /\
          n = length short /\
          length (broadcastTxs transfers) = length short).
Proof.
  intros Hscan Hget Hrun.
  exists (sort_Slice lessMissingFunds short).
  split; [apply sorted_short_sorted|]. split; [apply sorted_short_perm|].
  destruct (fundAccounts_after_lookup _ _ _ _ _ _ _ _ _ _ _ Hscan Hget Hrun)
    as [(Halloc & Hout & Htr)|[(balance & Halloc & Hout & Htr)
                      |(balance & n & tr & ending & Halloc & Htr & Htransfers & Hout)]];
    rewrite Halloc.
  - split; [exact Hout|]. exists [], 0%nat.
    split; [exact Htr|]. split; [lia|]. split; [reflexivity|].
    split; [reflexivity|]. intros funded err Hsome. congruence.
  - split; [exact Hout|]. exists [], 0%nat.
    split; [exact Htr|]. split; [lia|]. split; [reflexivity|].
    split; [reflexivity|]. intros funded err Hsome. congruence.
  - split; [exists ending; exact Hout|].
    destruct (Transfers_calls _ _ _ _ _ _ Htransfers)
      as (_ & Hsame & k & Hk & Hreqs & Hcred & Hdone & _).
    rewrite (Permutation_length (sorted_short_perm short)) in Hk, Hdone.
    exists tr, k.
    split; [exact Htr|]. split; [exact Hk|]. split; [exact Hreqs|].
    split; [exact Hcred|].
    intros funded err Hsome. rewrite Hout in Hsome.
    destruct ending; try discriminate. inversion Hsome; subst.
    destruct (Hdone eq_refl) as [-> Hsigned].
    split; [reflexivity|]. split; [reflexivity|].
    rewrite Hsame. exact Hsigned.
Qed.

(** C7. The list of short accounts that [fundAccounts] uses for allocation
    and for execution is the list [sort.Slice] leaves: it holds the short
    accounts of the scan in non-decreasing order of missing funds, so of two
    adjacent entries the earlier one misses at most as much as the later
    one.  The allocation loop runs over that list (its count decides between
    "insufficient distributor funds" and the transfers), and the
    transactions handed to the signer are the transfers to the first entries
    of that list, in its order. *)
Theorem allocation_and_transfers_use_sorted_short_accounts (first : keys.Info)
  (subAccounts : list keys.Info) (singleRunCost : std.Coin) (s s1 : State World)
  (ready : list keys.Info) (short : list shortAccount)
  (distributor : gnoland.GnoAccount) (w2 : World) out s' :
  scanLoop d singleRunCost subAccounts [] [] s = (Val (ready, short), s1) ->
  GetAccount (store d) (addressOf first) (world s1) = (inr distributor, w2) ->
  fundAccounts EncryptPassword d (first :: subAccounts) singleRunCost s = (out, s') ->
  exists sorted,
    Sorted leMissingFunds sorted /\
    Permutation sorted short /\
    match allocLoop sorted (gnoland.Coins distributor) 0%nat with
    | None => out = Panic Go.CoinPanic
    | Some (_, O) =>
        out = Val (None, Some (Go.errors_New "insufficient distributor funds"))
    | Some (_, S _) => exists ending, out = execResult ready sorted ending
    end /\
    exists transfers n,
      trace s' = trace s1
                 ++ EvGetAccount (addressOf first) (inr distributor) :: transfers /\
      signRequests transfers = map (transferOf distributor) (firstn n sorted).
Proof.
  intros Hscan Hget Hrun.
  destruct (run_on_sorted_list _ _ _ _ _ _ _ _ _ _ _ Hscan Hget Hrun)
    as (sorted & Hsorted & Hperm & Halloc & transfers & n & Htr & _ & Hreqs & _).
  exists sorted. split; [exact Hsorted|]. split; [exact Hperm|].
  split; [exact Halloc|]. exists transfers, n. split; assumption.
Qed.

(** X3. The list a successful run returns is the ready accounts of the scan
    followed by the short accounts of the scan in non-decreasing order of
    missing funds (which of two accounts that miss the same comes first is
    left to [sort.Slice]); there was at least one short account, and the run
    made one call to the signer and one to the broadcaster for each of
    them. *)
Theorem success_lists_ready_then_sorted_short (first : keys.Info)
  (subAccounts : list keys.Info) (singleRunCost : std.Coin) (s s1 : State World)
  (ready : list keys.Info) (short : list shortAccount) funded err s' :
  scanLoop d singleRunCost subAccounts [] [] s = (Val (ready, short), s1) ->
  fundAccounts EncryptPassword d (first :: subAccounts) singleRunCost s
    = (Val (Some funded, err), s') ->
  exists sorted,
    Sorted leMissingFunds sorted /\
    Permutation sorted short /\
    funded = ready ++ map account sorted /\
    short <> [] /\
    exists tr,
      trace s' = trace s1 ++ tr /\
      length (signRequests tr) = length short /\
      length (broadcastTxs tr) = length short.
Proof.
  intros Hscan Hrun.
  destruct (GetAccount (store d) (addressOf first) (world s1))
    as [[err'|distributor] w2] eqn:Hget.
  { rewrite fundAccounts_cons, Hscan, Hget in Hrun. discriminate. }
  destruct (success_details _ _ _ _ _ _ _ _ _ _ _ _ Hscan Hget Hrun)
    as (_ & _ & Hne & _).
  destruct (run_on_sorted_list _ _ _ _ _ _ _ _ _ _ _ Hscan Hget Hrun)
    as (sorted & Hsorted & Hperm & _ & transfers & n & Htr & _ & Hreqs & _ & Hdone).
  destruct (Hdone funded err eq_refl) as (Hfunded & Hn & Hsent).
  exists sorted. split; [exact Hsorted|]. split; [exact Hperm|].
  split; [exact Hfunded|]. split; [exact Hne|].
  exists (EvGetAccount (addressOf first) (inr distributor) :: transfers).
  split; [exact Htr|]. simpl. split; [|exact Hsent].
  rewrite Hreqs, length_map, firstn_all2; [|rewrite (Permutation_length Hperm); lia].
  apply Permutation_length. exact Hperm.
Qed.

(** X4. After a scan and a lookup of the distributor account that both
    succeeded, [fundAccounts] returns "insufficient distributor funds"
    exactly when no sub-account is short or the balance of the distributor
    account is below the smallest shortfall plus the fee.  (Shortfalls are
    positive and, with the fee, fit an [int64].) *)
Theorem insufficient_funds_iff_nothing_affordable (first : keys.Info)
  (subAccounts : list keys.Info) (singleRunCost : std.Coin) (s s1 : State World)
  (ready : list keys.Info) (short : list shortAccount)
  (distributor : gnoland.GnoAccount) (w2 : World) :
  scanLoop d singleRunCost subAccounts [] [] s = (Val (ready, short), s1) ->
  GetAccount (store d) (addressOf first) (world s1) = (inr distributor, w2) ->
  Forall (fun e => 0 < std.Amount (missingFunds e) /\ costOf e <= Go.MaxInt64) short ->
  (fst (fundAccounts EncryptPassword d (first :: subAccounts) singleRunCost s)
   = Val (None, Some (Go.errors_New "insufficient distributor funds"))
   <->
   short = [] \/
   gnoland.Coins distributor < minShortfall short + std.Amount common.DefaultGasFee).
Proof.
  intros Hscan Hget Hrange.
  rewrite <- none_affordable_iff.
  pose proof (allocLoop_of_sorted_short short (gnoland.Coins distributor) Hrange)
    as Halloc.
  split.
  - intros Hout.
    destruct (fundAccounts EncryptPassword d (first :: subAccounts) singleRunCost s)
      as [out s'] eqn:Hrun.
    simpl in Hout. subst out.
    destruct (fundAccounts_after_lookup _ _ _ _ _ _ _ _ _ _ _ Hscan Hget Hrun)
      as [(_ & Hout & _)|[(balance & Hzero & _)
                         |(balance & n & tr & ending & _ & _ & _ & Hout)]].
    + discriminate.
    + rewrite Halloc in Hzero. inversion Hzero. reflexivity.
    + destruct ending; discriminate.
  - intros Hzero. rewrite Hzero in Halloc.
    rewrite fundAccounts_cons, Hscan, Hget. cbn [fst snd].
    rewrite Halloc. reflexivity.
Qed.

(** X6. The error of a run names the step that failed: a lookup of a
    sub-account, the lookup of the distributor account (the one made after a
    lookup for each sub-account), a signature or a broadcast, each with its
    own message, wrapping the error of the failed call. *)
Theorem error_names_the_failed_step (first : keys.Info)
  (subAccounts : list keys.Info) (singleRunCost : std.Coin) (s : State World)
  out s' pre e cause :
  fundAccounts EncryptPassword d (first :: subAccounts) singleRunCost s = (out, s') ->
  trace s' = trace s ++ pre ++ [e] ->
  eventError e = Some cause ->
  out = Val (None,
             Some (Go.fmt_Errorf (failureFormat (length subAccounts) pre e) cause)).
Proof.
  intros Hrun Htrace Herr.
  destruct (fundAccounts_run _ _ _ _ _ _ Hrun)
    as [(pre0 & e0 & cause0 & Htr & Hlook & _ & Herr0 & Hlen & _ & ->)
       |(ready & short & s1 & tr1 & Hscan & Htr1 & Hlook1 & Hok1 & Hlen1 & _ & _
         & [(err & w2 & _ & Htr & ->)|(distributor & w2 & Hget)])].
  - rewrite Htr in Htrace. apply app_inv_head, app_inj_tail in Htrace.
    destruct Htrace as [-> ->].
    apply Forall_app in Hlook. destruct Hlook as [_ Hlook].
    inversion Hlook as [|? ? He _]; subst.
    destruct e; try discriminate. unfold failureFormat.
    apply Nat.ltb_lt in Hlen. rewrite Hlen. congruence.
  - rewrite Htr, Htr1, <- app_assoc in Htrace.
    apply app_inv_head, app_inj_tail in Htrace. destruct Htrace as [-> <-].
    unfold failureFormat. rewrite Hlen1, Nat.ltb_irrefl.
    simpl in Herr. congruence.
  - set (ev := EvGetAccount (addressOf first) (inr distributor)) in *.
    assert (Hok2 : allOk (tr1 ++ [ev]))
      by (apply allOk_app; [exact Hok1 | repeat constructor]).
    destruct (fundAccounts_after_lookup _ _ _ _ _ _ _ _ _ _ _ Hscan Hget Hrun)
      as [(_ & _ & Htr)|[(balance & _ & _ & Htr)
                        |(balance & n & tr & ending & _ & Htr & Htransfers & ->)]].
    + exfalso. rewrite Htr, Htr1, <- app_assoc in Htrace.
      apply app_inv_head in Htrace.
      exact (allOk_no_failure _ _ _ _ _ Hok2 Htrace Herr).
    + exfalso. rewrite Htr, Htr1, <- app_assoc in Htrace.
      apply app_inv_head in Htrace.
      exact (allOk_no_failure _ _ _ _ _ Hok2 Htrace Herr).
    + rewrite Htr, Htr1, <- app_assoc in Htrace. apply app_inv_head in Htrace.
      assert (Heq : (tr1 ++ [ev]) ++ tr = pre ++ [e])
        by (rewrite <- Htrace, <- app_assoc; reflexivity).
      clear Htrace. rename Heq into Htrace.
      pose proof (Transfers_failure _ _ _ _ _ _ Htransfers) as Hend.
      destruct ending as [|c|c|].
      * exfalso.
        exact (allOk_no_failure _ _ _ _ _ (allOk_app _ _ Hok2 Hend) Htrace Herr).
      * destruct Hend as (pre3 & e3 & -> & Hok3 & He3 & Herr3).
        rewrite app_assoc in Htrace. apply app_inj_tail in Htrace.
        destruct Htrace as [_ ->].
        destruct e; try discriminate. simpl. congruence.
      * destruct Hend as (pre3 & e3 & -> & Hok3 & He3 & Herr3).
        rewrite app_assoc in Htrace. apply app_inj_tail in Htrace.
        destruct Htrace as [_ ->].
        destruct e; try discriminate. simpl. congruence.
      * exfalso.
        exact (allOk_no_failure _ _ _ _ _ (allOk_app _ _ Hok2 Hend) Htrace Herr).
Qed.

(** X7. In every run the transactions handed to the broadcaster are the
    transactions that came back from the signer, in the same order: nothing
    is broadcast unsigned, nothing signed is left out, and the signer is
    called at most once more than the broadcaster. *)
Theorem broadcast_exactly_what_was_signed (accounts : list keys.Info)
  (singleRunCost : std.Coin) (s : State World) out s' :
  fundAccounts EncryptPassword d accounts singleRunCost s = (out, s') ->
  exists tr,
    trace s' = trace s ++ tr /\
    broadcastTxs tr = signedTxs tr /\
    (length (broadcastTxs tr) <= length (signRequests tr)
     <= S (length (broadcastTxs tr)))%nat.
Proof.
  intros Hrun.
  assert (Hlookups : forall tr, Forall (fun e => isGetAccount e = true) tr ->
             trace s' = trace s ++ tr ->
             exists tr,
               trace s' = trace s ++ tr /\
               broadcastTxs tr = signedTxs tr /\
               (length (broadcastTxs tr) <= length (signRequests tr)
                <= S (length (broadcastTxs tr)))%nat).
  { intros tr Hlook Htr. exists tr.
    destruct (lookups_only tr Hlook) as (-> & _ & -> & -> & _).
    split; [exact Htr|]. split; [reflexivity | simpl; lia]. }
  destruct accounts as [|first subAccounts].
  { inversion Hrun; subst. apply (Hlookups []); [constructor|].
    now rewrite app_nil_r. }
  destruct (fundAccounts_run _ _ _ _ _ _ Hrun)
    as [(pre0 & e0 & cause0 & Htr & Hlook & _)
       |(ready & short & s1 & tr1 & Hscan & Htr1 & Hlook1 & _ & _ & _ & _
         & [(err & w2 & _ & Htr & _)|(distributor & w2 & Hget)])].
  - apply (Hlookups _ Hlook Htr).
  - apply (Hlookups (tr1 ++ [EvGetAccount (addressOf first) (inl err)])).
    + apply Forall_app. split; [exact Hlook1 | repeat constructor].
    + rewrite Htr, Htr1, <- app_assoc. reflexivity.
  - set (ev := EvGetAccount (addressOf first) (inr distributor)) in *.
    assert (Hlook2 : Forall (fun e => isGetAccount e = true) (tr1 ++ [ev]))
      by (apply Forall_app; split; [exact Hlook1 | repeat constructor]).
    destruct (fundAccounts_after_lookup _ _ _ _ _ _ _ _ _ _ _ Hscan Hget Hrun)
      as [(_ & _ & Htr)|[(balance & _ & _ & Htr)
                        |(balance & n & tr & ending & _ & Htr & Htransfers & _)]].
    + apply (Hlookups _ Hlook2). rewrite Htr, Htr1, <- app_assoc. reflexivity.
    + apply (Hlookups _ Hlook2). rewrite Htr, Htr1, <- app_assoc. reflexivity.
    + exists ((tr1 ++ [ev]) ++ tr).
      split; [rewrite Htr, Htr1, <- !app_assoc; reflexivity|].
      destruct (lookups_only _ Hlook2) as (Hreq & _ & Hsigned & Hsent & _).
      rewrite broadcastTxs_app, signedTxs_app, signRequests_app, Hreq, Hsigned, Hsent.
      simpl.
      destruct (Transfers_calls _ _ _ _ _ _ Htransfers)
        as (_ & Hsame & k & Hk & Hreqs & _ & _ & Hcount).
      split; [exact Hsame|].
      rewrite Hsame, Hreqs, length_map, firstn_length_le by exact Hk. exact Hcount.
Qed.

(** X8. After a scan and a lookup of the distributor account that both
    succeeded, the transactions handed to the signer are, in order, the
    transfers to the first entries of a list that holds the short accounts
    of the scan in non-decreasing order of missing funds: one message each,
    from the address of the account the store returned, to the short
    account, of exactly its missing funds, with 60000 gas and the fixed fee.
    Every call to the signer is made with that account and
    [common.EncryptPassword]. *)
Theorem transfers_follow_sorted_short_accounts (first : keys.Info)
  (subAccounts : list keys.Info) (singleRunCost : std.Coin) (s s1 : State World)
  (ready : list keys.Info) (short : list shortAccount)
  (distributor : gnoland.GnoAccount) (w2 : World) out s' :
  scanLoop d singleRunCost subAccounts [] [] s = (Val (ready, short), s1) ->
  GetAccount (store d) (addressOf first) (world s1) = (inr distributor, w2) ->
  fundAccounts EncryptPassword d (first :: subAccounts) singleRunCost s = (out, s') ->
  exists sorted transfers n,
    Sorted leMissingFunds sorted /\
    Permutation sorted short /\
    trace s' = trace s1
               ++ EvGetAccount (addressOf first) (inr distributor) :: transfers /\
    (n <= length short)%nat /\
    signRequests transfers = map (transferOf distributor) (firstn n sorted) /\
    signCredentials transfers = repeat (distributor, EncryptPassword) n.
Proof.
  intros Hscan Hget Hrun.
  destruct (run_on_sorted_list _ _ _ _ _ _ _ _ _ _ _ Hscan Hget Hrun)
    as (sorted & Hsorted & Hperm & _ & transfers & n & Htr & Hn & Hreqs & Hcred & _).
  exists sorted, transfers, n. auto 7.
Qed.

(** X9. Over a store that answers the lookups of the sub-accounts from an
    unchanged ledger (balances non-negative [int64]s), every transaction the
    run hands to the signer pays one sub-account whose balance C is below the
    required balance R, and pays it exactly R - C: a funded account ends with
    the required balance, not more. *)
Theorem transfer_tops_up_to_required_balance (singleRunCost : std.Coin)
  (held : keys.Info -> gnoland.GnoAccount) (w : World) (tr0 : list Event)
  (first : keys.Info) (subAccounts : list keys.Info) out s' :
  (forall a, In a subAccounts ->
             GetAccount (store d) (addressOf a) w = (inr (held a), w)) ->
  (forall a, In a subAccounts ->
             0 <= std.AmountOf (gnoland.Coins (held a)) common.Denomination
               <= Go.MaxInt64) ->
  Go.MinInt64 <= std.Amount singleRunCost <= Go.MaxInt64 ->
  fundAccounts EncryptPassword d (first :: subAccounts) singleRunCost
    {| world := w; trace := tr0 |} = (out, s') ->
  exists tr,
    trace s' = tr0 ++ tr /\
    Forall (fun tx =>
              exists a,
                In a subAccounts /\
                std.AmountOf (gnoland.Coins (held a)) common.Denomination
                  < std.Amount singleRunCost /\
                map (fun m => (bank.ToAddress m, bank.Amount m)) (Msgs tx)
                = [(keys.GetAddress a,
                    std.Amount singleRunCost
                    - std.AmountOf (gnoland.Coins (held a)) common.Denomination)])
           (signRequests tr).
Proof.
  intros Hstore Hbal HR Hrun. unfold std.AmountOf in *.
  assert (Hlookups : forall tr, Forall (fun e => isGetAccount e = true) tr ->
             trace s' = tr0 ++ tr ->
             exists tr,
               trace s' = tr0 ++ tr /\
               Forall (fun tx =>
                         exists a,
                           In a subAccounts /\
                           gnoland.Coins (held a) < std.Amount singleRunCost /\
                           map (fun m => (bank.ToAddress m, bank.Amount m)) (Msgs tx)
                           = [(keys.GetAddress a,
                               std.Amount singleRunCost - gnoland.Coins (held a))])
                      (signRequests tr)).
  { intros tr Hlook Htr. exists tr. split; [exact Htr|].
    destruct (lookups_only tr Hlook) as (-> & _). constructor. }
  pose proof (scanLoop_readonly d singleRunCost held w subAccounts Hstore [] [] tr0)
    as Hclosed.
  cbn [app] in Hclosed.
  destruct (fundAccounts_run _ _ _ _ _ _ Hrun)
    as [(pre0 & e0 & cause0 & Htr & Hlook & _)
       |(ready & short & s1 & tr1 & Hscan & Htr1 & Hlook1 & _ & _ & _ & _
         & [(err & w2 & _ & Htr & _)|(distributor & w2 & Hget)])].
  - apply (Hlookups _ Hlook Htr).
  - apply (Hlookups (tr1 ++ [EvGetAccount (addressOf first) (inl err)])).
    + apply Forall_app. split; [exact Hlook1 | repeat constructor].
    + rewrite Htr, Htr1, <- app_assoc. reflexivity.
  - set (ev := EvGetAccount (addressOf first) (inr distributor)) in *.
    assert (Hlook2 : Forall (fun e => isGetAccount e = true) (tr1 ++ [ev]))
      by (apply Forall_app; split; [exact Hlook1 | repeat constructor]).
    cbn [trace] in Htr1.
    destruct (fundAccounts_after_lookup _ _ _ _ _ _ _ _ _ _ _ Hscan Hget Hrun)
      as [(_ & _ & Htr)|[(balance & _ & _ & Htr)
                        |(balance & n & tr & ending & _ & Htr & Htransfers & _)]].
    + apply (Hlookups _ Hlook2). rewrite Htr, Htr1, <- app_assoc. reflexivity.
    + apply (Hlookups _ Hlook2). rewrite Htr, Htr1, <- app_assoc. reflexivity.
    + exists ((tr1 ++ [ev]) ++ tr).
      split; [rewrite Htr, Htr1, <- !app_assoc; reflexivity|].
      destruct (lookups_only _ Hlook2) as (Hreq & _).
      rewrite signRequests_app, Hreq. cbn [app].
      destruct (Transfers_calls _ _ _ _ _ _ Htransfers)
        as (_ & _ & k & _ & -> & _).
      rewrite Hclosed in Hscan. inversion Hscan as [[Hready Hshort Hs1]].
      apply Forall_forall. intros tx Htx.
      apply in_map_iff in Htx. destruct Htx as (entry & <- & Hentry).
      apply in_firstn in Hentry.
      apply (Permutation_in _ (sorted_short_perm _)) in Hentry.
      apply in_map_iff in Hentry. destruct Hentry as (a & <- & Ha).
      apply filter_In in Ha. destruct Ha as [Ha Hlt]. apply Z.ltb_lt in Hlt.
      exists a. split; [exact Ha|]. split; [exact Hlt|].
      cbn [transferOf Msgs map bank.ToAddress bank.Amount account missingFunds
           std.Amount].
      rewrite int64_id; [reflexivity|].
      specialize (Hbal a Ha). unfold Go.MinInt64, Go.MaxInt64 in *. lia.
Qed.

(** X10. The store is asked for the sub-accounts in the order of the list
    and then for the first entry, and for nothing else: the addresses looked
    up in a run are the first addresses of [accounts[1:]] followed by
    [accounts[0]], as many as lookups were made. *)
Theorem lookups_follow_the_list (first : keys.Info) (subAccounts : list keys.Info)
  (singleRunCost : std.Coin) (s : State World) out s' :
  fundAccounts EncryptPassword d (first :: subAccounts) singleRunCost s = (out, s') ->
  exists tr,
    trace s' = trace s ++ tr /\
    lookedUp tr
    = firstn (length (lookedUp tr))
        (map (fun a => addressOf a) (subAccounts ++ [first])).
Proof.
  intros Hrun.
  assert (Hall : forall tr1 tr,
             lookedUp tr1 = map (fun a => addressOf a) subAccounts ->
             Forall (fun e => isGetAccount e = false) tr ->
             forall res,
               lookedUp ((tr1 ++ [EvGetAccount (addressOf first) res]) ++ tr)
               = firstn (length (lookedUp ((tr1 ++ [EvGetAccount (addressOf first) res])
                                           ++ tr)))
                   (map (fun a => addressOf a) (subAccounts ++ [first]))).
  { intros tr1 tr Hlooked Hno res.
    rewrite !lookedUp_app, (calls_without_lookup tr Hno), app_nil_r, Hlooked.
    rewrite map_app. cbn [lookedUp map].
    symmetry. apply firstn_all. }
  destruct (fundAccounts_run _ _ _ _ _ _ Hrun)
    as [(pre0 & e0 & cause0 & Htr & Hlook & _ & _ & Hlen & Hlooked & _)
       |(ready & short & s1 & tr1 & Hscan & Htr1 & Hlook1 & _ & _ & Hlooked & _
         & [(err & w2 & _ & Htr & _)|(distributor & w2 & Hget)])].
  - exists (pre0 ++ [e0]). split; [exact Htr|].
    destruct (lookups_only _ Hlook) as (_ & _ & _ & _ & Hcount).
    rewrite Hcount, length_app, Nat.add_1_r, Hlooked. simpl length.
    rewrite map_app, firstn_app, length_map.
    replace (S (length pre0) - length subAccounts)%nat with 0%nat by lia.
    rewrite firstn_O, app_nil_r. reflexivity.
  - exists ((tr1 ++ [EvGetAccount (addressOf first) (inl err)]) ++ []).
    split; [rewrite Htr, Htr1, app_nil_r, <- app_assoc; reflexivity|].
    apply Hall; [exact Hlooked | constructor].
  - destruct (fundAccounts_after_lookup _ _ _ _ _ _ _ _ _ _ _ Hscan Hget Hrun)
      as [(_ & _ & Htr)|[(balance & _ & _ & Htr)
                        |(balance & n & tr & ending & _ & Htr & Htransfers & _)]].
    + exists ((tr1 ++ [EvGetAccount (addressOf first) (inr distributor)]) ++ []).
      split; [rewrite Htr, Htr1, app_nil_r, <- app_assoc; reflexivity|].
      apply Hall; [exact Hlooked | constructor].
    + exists ((tr1 ++ [EvGetAccount (addressOf first) (inr distributor)]) ++ []).
      split; [rewrite Htr, Htr1, app_nil_r, <- app_assoc; reflexivity|].
      apply Hall; [exact Hlooked | constructor].
    + exists ((tr1 ++ [EvGetAccount (addressOf first) (inr distributor)]) ++ tr).
      split; [rewrite Htr, Htr1, <- !app_assoc; reflexivity|].
      apply Hall; [exact Hlooked|].
      apply (Transfers_calls _ _ _ _ _ _ Htransfers).
Qed.

(** X1. [Distribute] requires of each sub-account the number of
    transactions times the cost of one transaction, the fixed fee plus
    [common.InitialTxCost]: where that product and its factors fit an
    [int64], the call is [fundAccounts] with that amount of
    [common.Denomination] as the required balance. *)
Theorem distribute_requires_transactions_times_base_cost (InitialTxCost : std.Coin)
  (accounts : list keys.Info) (transactions : Z) (s : State World) :
  0 <= transactions <= Go.MaxInt64 ->
  Go.MinInt64 <= std.Amount common.DefaultGasFee + std.Amount InitialTxCost
              <= Go.MaxInt64 ->
  Go.MinInt64
    <= transactions * (std.Amount common.DefaultGasFee + std.Amount InitialTxCost)
    <= Go.MaxInt64 ->
  Distribute InitialTxCost EncryptPassword d accounts transactions s
  = fundAccounts EncryptPassword d accounts
      {| std.Denom := common.Denomination;
         std.Amount := transactions
                       * (std.Amount common.DefaultGasFee + std.Amount InitialTxCost) |}
      s.
Proof.
  intros Htx Hbase Hprod.
  unfold Distribute, bind, calculateRuntimeCosts, std.Add.
  destruct (Go.MinInt64 <=? std.Amount common.DefaultGasFee + std.Amount InitialTxCost)
    eqn:E1; [|apply Z.leb_gt in E1; lia].
  destruct (std.Amount common.DefaultGasFee + std.Amount InitialTxCost <=? Go.MaxInt64)
    eqn:E2; [|apply Z.leb_gt in E2; lia].
  cbn [andb must ret std.Amount].
  rewrite (int64_id transactions) by (unfold Go.MinInt64, Go.MaxInt64 in *; lia).
  rewrite int64_id by exact Hprod. reflexivity.
Qed.

(** X11. No transaction is handed to the signer before every sub-account
    and then the distributor account have been looked up with success: in a
    run that signs anything, the calls start with one successful lookup per
    sub-account, in list order, followed by the successful lookup of the
    first entry, and no lookup is made after that. *)
Theorem signing_starts_after_all_lookups (first : keys.Info)
  (subAccounts : list keys.Info) (singleRunCost : std.Coin) (s : State World)
  out s' tr :
  fundAccounts EncryptPassword d (first :: subAccounts) singleRunCost s = (out, s') ->
  trace s' = trace s ++ tr ->
  signRequests tr <> [] ->
  exists lookups distributor transfers,
    tr = lookups ++ EvGetAccount (addressOf first) (inr distributor) :: transfers /\
    allOk lookups /\
    lookedUp lookups = map (fun a => addressOf a) subAccounts /\
    length lookups = length subAccounts /\
    Forall (fun e => isGetAccount e = false) transfers.
Proof.
  intros Hrun Htrace Hsigned.
  assert (Hlookups : forall tr', Forall (fun e => isGetAccount e = true) tr' ->
             trace s' = trace s ++ tr' -> False).
  { intros tr' Hlook Htr'. rewrite Htr' in Htrace. apply app_inv_head in Htrace.
    subst tr'. apply Hsigned. apply (lookups_only tr Hlook). }
  destruct (fundAccounts_run _ _ _ _ _ _ Hrun)
    as [(pre0 & e0 & cause0 & Htr & Hlook & _)
       |(ready & short & s1 & tr1 & Hscan & Htr1 & Hlook1 & Hok1 & Hlen1 & Hlooked & _
         & [(err & w2 & _ & Htr & _)|(distributor & w2 & Hget)])].
  - exfalso. exact (Hlookups _ Hlook Htr).
  - exfalso. apply (Hlookups (tr1 ++ [EvGetAccount (addressOf first) (inl err)])).
    + apply Forall_app. split; [exact Hlook1 | repeat constructor].
    + rewrite Htr, Htr1, <- app_assoc. reflexivity.
  - set (ev := EvGetAccount (addressOf first) (inr distributor)) in *.
    assert (Hlook2 : Forall (fun e => isGetAccount e = true) (tr1 ++ [ev]))
      by (apply Forall_app; split; [exact Hlook1 | repeat constructor]).
    destruct (fundAccounts_after_lookup _ _ _ _ _ _ _ _ _ _ _ Hscan Hget Hrun)
      as [(_ & _ & Htr)|[(balance & _ & _ & Htr)
                        |(balance & n & tr3 & ending & _ & Htr & Htransfers & _)]].
    + exfalso. apply (Hlookups _ Hlook2). rewrite Htr, Htr1, <- app_assoc. reflexivity.
    + exfalso. apply (Hlookups _ Hlook2). rewrite Htr, Htr1, <- app_assoc. reflexivity.
    + rewrite Htr, Htr1, <- app_assoc in Htrace. apply app_inv_head in Htrace.
      exists tr1, distributor, tr3. split; [symmetry; exact Htrace|].
      split; [exact Hok1|]. split; [exact Hlooked|]. split; [exact Hlen1|].
      apply (Transfers_calls _ _ _ _ _ _ Htransfers).
Qed.

(** X12. Over a store that answers the lookups of the sub-accounts from an
    unchanged ledger, the scan keeps the order of the list: the ready
    accounts are the sub-accounts that hold the required balance, in list
    order, the short accounts (before sorting) are the others, in list
    order; the scan makes one lookup per sub-account, in list order, and
    leaves the ledger as it was. *)
Theorem scan_keeps_list_order (singleRunCost : std.Coin)
  (held : keys.Info -> gnoland.GnoAccount) (w : World) (tr0 : list Event)
  (subAccounts : list keys.Info) :
  (forall a, In a subAccounts ->
             GetAccount (store d) (addressOf a) w = (inr (held a), w)) ->
  exists ready short tr,
    scanLoop d singleRunCost subAccounts [] [] {| world := w; trace := tr0 |}
    = (Val (ready, short), {| world := w; trace := tr0 ++ tr |}) /\
    ready = filter (fun a => std.Amount singleRunCost
                             <=? std.AmountOf (gnoland.Coins (held a))
                                   common.Denomination)
              subAccounts /\
    map account short
    = filter (fun a => std.AmountOf (gnoland.Coins (held a)) common.Denomination
                       <? std.Amount singleRunCost)
        subAccounts /\
    lookedUp tr = map (fun a => addressOf a) subAccounts /\
    length tr = length subAccounts /\
    allOk tr.
Proof.
  intros Hstore. unfold std.AmountOf.
  rewrite (scanLoop_readonly d singleRunCost held w subAccounts Hstore [] [] tr0).
  cbn [app]. do 3 eexists. split; [reflexivity|].
  split; [|split; [|split; [|split]]].
  - apply filter_ext. intros a. rewrite Z.leb_antisym. reflexivity.
  - rewrite map_map. cbn [account]. apply map_id.
  - clear Hstore. induction subAccounts as [|a l IH]; simpl; [reflexivity|].
    rewrite IH. reflexivity.
  - apply length_map.
  - clear Hstore. induction subAccounts as [|a l IH]; simpl; constructor;
      [reflexivity | exact IH].
Qed.

End Coverage.

(** X5. The allocation loop, run on the sorted short accounts, hands back
    the balance it was given and counts the short accounts whose own cost,
    shortfall plus fee, is within that balance: each cost is compared with
    the whole balance.  (Shortfalls are positive and, with the fee, fit an
    [int64].) *)
Theorem fundable_index_counts_each_cost_alone (short : list shortAccount)
  (distributorBalance : std.Coins) :
  Forall (fun e => 0 < std.Amount (missingFunds e) /\ costOf e <= Go.MaxInt64) short ->
  allocLoop (sort_Slice lessMissingFunds short) distributorBalance 0%nat
  = Some (distributorBalance,
          length (filter (fun e => costOf e <=? distributorBalance) short)).
Proof.
  intros Hrange.
  rewrite allocLoop_sorted_count.
  - rewrite (filter_length_perm _ _ _ (sorted_short_perm short)). reflexivity.
  - apply sorted_short_sorted.
  - apply (Permutation_Forall (Permutation_sym (sorted_short_perm short))).
    exact Hrange.
Qed.

(** ** The further properties at work on the in-memory ledger *)

(** X1 with ten transactions and an initial transaction cost of 1000000. *)
Lemma distribute_requires_transactions_times_base_cost_witness :
  Distribute (Mock.ugnot 1000000) "pw" Mock.mockDistributor Mock.scenarioAccounts 10
    (Mock.start Mock.scenarioLedger)
  = fundAccounts "pw" Mock.mockDistributor Mock.scenarioAccounts
      (Mock.ugnot 10000010) (Mock.start Mock.scenarioLedger).
Proof.
  apply (distribute_requires_transactions_times_base_cost "pw" Mock.mockDistributor
           (Mock.ugnot 1000000) Mock.scenarioAccounts 10
           (Mock.start Mock.scenarioLedger)).
  - vm_compute. split; discriminate.
  - vm_compute. split; discriminate.
  - vm_compute. split; discriminate.
Defined.

(** X2 on the ledger whose sub-accounts miss 600 and 700. *)
Lemma success_returns_every_sub_account_witness :
  @None Go.error = None /\
  Permutation [Mock.key "g1a"; Mock.key "g1b"] [Mock.key "g1a"; Mock.key "g1b"] /\
  exists tr,
    trace (snd (fundAccounts "pw" Mock.mockDistributor Mock.tightAccounts
                  (Mock.ugnot 1000) (Mock.start Mock.tightLedger))) = [] ++ tr /\
    allOk tr /\
    (1 <= length (signRequests tr))%nat /\
    length (broadcastTxs tr) = length (signRequests tr).
Proof.
  apply (success_returns_every_sub_account "pw" Mock.mockDistributor
           (Mock.key "g1funder") [Mock.key "g1a"; Mock.key "g1b"]
           (Mock.ugnot 1000) (Mock.start Mock.tightLedger)).
  reflexivity.
Defined.

(** X3 on the scenario ledger. *)
Lemma success_lists_ready_then_sorted_short_witness :
  exists sorted,
    Sorted leMissingFunds sorted /\
    Permutation sorted [Mock.short "g1empty" 2000; Mock.short "g1near" 100] /\
    [Mock.key "g1ready"; Mock.key "g1near"; Mock.key "g1empty"]
    = [Mock.key "g1ready"] ++ map account sorted /\
    [Mock.short "g1empty" 2000; Mock.short "g1near" 100] <> [] /\
    exists tr,
      trace (snd (fundAccounts "pw" Mock.mockDistributor Mock.scenarioAccounts
                  (Mock.ugnot 2000) (Mock.start Mock.scenarioLedger)))
      = trace (snd (scanLoop Mock.mockDistributor (Mock.ugnot 2000)
                    [Mock.key "g1ready"; Mock.key "g1empty"; Mock.key "g1near"]
                    [] [] (Mock.start Mock.scenarioLedger))) ++ tr /\
      length (signRequests tr) = 2%nat /\
      length (broadcastTxs tr) = 2%nat.
Proof.
  apply (success_lists_ready_then_sorted_short "pw" Mock.mockDistributor
           (Mock.key "g1funder") [Mock.key "g1ready"; Mock.key "g1empty"; Mock.key "g1near"]
           (Mock.ugnot 2000) (Mock.start Mock.scenarioLedger)
           (snd (scanLoop Mock.mockDistributor (Mock.ugnot 2000)
                    [Mock.key "g1ready"; Mock.key "g1empty"; Mock.key "g1near"]
                    [] [] (Mock.start Mock.scenarioLedger)))
           [Mock.key "g1ready"] [Mock.short "g1empty" 2000; Mock.short "g1near" 100]
           [Mock.key "g1ready"; Mock.key "g1near"; Mock.key "g1empty"] None
           (snd (fundAccounts "pw" Mock.mockDistributor Mock.scenarioAccounts
                  (Mock.ugnot 2000) (Mock.start Mock.scenarioLedger)))).
  - reflexivity.
  - reflexivity.
Defined.

(** X4 on the ledger whose funding account holds 50. *)
Lemma insufficient_funds_iff_nothing_affordable_witness :
  fst (fundAccounts "pw" Mock.mockDistributor Mock.scenarioAccounts (Mock.ugnot 2000)
         (Mock.start Mock.poorLedger))
  = Val (None, Some (Go.errors_New "insufficient distributor funds"))
  <->
  [Mock.short "g1empty" 2000; Mock.short "g1near" 100] = [] \/
  50 < minShortfall [Mock.short "g1empty" 2000; Mock.short "g1near" 100]
       + std.Amount common.DefaultGasFee.
Proof.
  apply (insufficient_funds_iff_nothing_affordable "pw" Mock.mockDistributor
           (Mock.key "g1funder")
           [Mock.key "g1ready"; Mock.key "g1empty"; Mock.key "g1near"]
           (Mock.ugnot 2000) (Mock.start Mock.poorLedger)
           (snd (scanLoop Mock.mockDistributor (Mock.ugnot 2000)
                   [Mock.key "g1ready"; Mock.key "g1empty"; Mock.key "g1near"]
                   [] [] (Mock.start Mock.poorLedger)))
           [Mock.key "g1ready"]
           [Mock.short "g1empty" 2000; Mock.short "g1near" 100]
           (snd (Mock.acc "g1funder" 50 7)) Mock.poorLedger).
  - reflexivity.
  - reflexivity.
  - repeat constructor; vm_compute; discriminate.
Defined.

(** X5 on a balance of 1000 and shortfalls of 600 and 700. *)
Lemma fundable_index_counts_each_cost_alone_witness :
  allocLoop (sort_Slice lessMissingFunds [Mock.short "g1a" 600; Mock.short "g1b" 700])
    1000 0%nat
  = Some (1000, 2%nat).
Proof.
  apply (fundable_index_counts_each_cost_alone
           [Mock.short "g1a" 600; Mock.short "g1b" 700] 1000).
  repeat constructor; vm_compute; discriminate.
Defined.

(** X6 on the list that names an account the ledger does not have. *)
Lemma error_names_the_failed_step_witness :
  fst (fundAccounts "pw" Mock.mockDistributor Mock.ghostAccounts (Mock.ugnot 2000)
         (Mock.start Mock.scenarioLedger))
  = Val (None,
         Some (Go.fmt_Errorf "unable to fetch sub-account, %w"
                 (Go.errors_New "account not found"))).
Proof.
  apply (error_names_the_failed_step "pw" Mock.mockDistributor
           (Mock.key "g1funder")
           [Mock.key "g1ready"; Mock.key "g1ghost"; Mock.key "g1near"]
           (Mock.ugnot 2000) (Mock.start Mock.scenarioLedger)
           _
           (snd (fundAccounts "pw" Mock.mockDistributor Mock.ghostAccounts
                   (Mock.ugnot 2000) (Mock.start Mock.scenarioLedger)))
           [EvGetAccount "g1ready" (inr (snd (Mock.acc "g1ready" 2000 0)))]
           (EvGetAccount "g1ghost" (inl (Go.errors_New "account not found")))
           (Go.errors_New "account not found")).
  - apply surjective_pairing.
  - reflexivity.
  - reflexivity.
Defined.

(** X7 on the scenario ledger. *)
Lemma broadcast_exactly_what_was_signed_witness :
  exists tr,
    trace (snd (fundAccounts "pw" Mock.mockDistributor Mock.scenarioAccounts
                  (Mock.ugnot 2000) (Mock.start Mock.scenarioLedger))) = [] ++ tr /\
    broadcastTxs tr = signedTxs tr /\
    (length (broadcastTxs tr) <= length (signRequests tr)
     <= S (length (broadcastTxs tr)))%nat.
Proof.
  apply (broadcast_exactly_what_was_signed "pw" Mock.mockDistributor
           Mock.scenarioAccounts (Mock.ugnot 2000) (Mock.start Mock.scenarioLedger)
           (fst (fundAccounts "pw" Mock.mockDistributor Mock.scenarioAccounts
                   (Mock.ugnot 2000) (Mock.start Mock.scenarioLedger)))).
  apply surjective_pairing.
Defined.

(** X8 on the scenario ledger. *)
Lemma transfers_follow_sorted_short_accounts_witness :
  exists sorted transfers n,
    Sorted leMissingFunds sorted /\
    Permutation sorted [Mock.short "g1empty" 2000; Mock.short "g1near" 100] /\
    trace (snd (fundAccounts "pw" Mock.mockDistributor Mock.scenarioAccounts
                  (Mock.ugnot 2000) (Mock.start Mock.scenarioLedger)))
    = trace (snd (scanLoop Mock.mockDistributor (Mock.ugnot 2000)
                    [Mock.key "g1ready"; Mock.key "g1empty"; Mock.key "g1near"]
                    [] [] (Mock.start Mock.scenarioLedger)))
      ++ EvGetAccount "g1funder" (inr (snd (Mock.acc "g1funder" 1000 7))) :: transfers /\
    (n <= 2)%nat /\
    signRequests transfers = map (transferOf (snd (Mock.acc "g1funder" 1000 7))) (firstn n sorted) /\
    signCredentials transfers = repeat ((snd (Mock.acc "g1funder" 1000 7)), "pw") n.
Proof.
  apply (transfers_follow_sorted_short_accounts "pw" Mock.mockDistributor
           (Mock.key "g1funder") [Mock.key "g1ready"; Mock.key "g1empty"; Mock.key "g1near"]
           (Mock.ugnot 2000) (Mock.start Mock.scenarioLedger)
           (snd (scanLoop Mock.mockDistributor (Mock.ugnot 2000)
                    [Mock.key "g1ready"; Mock.key "g1empty"; Mock.key "g1near"]
                    [] [] (Mock.start Mock.scenarioLedger)))
           [Mock.key "g1ready"] [Mock.short "g1empty" 2000; Mock.short "g1near" 100]
           (snd (Mock.acc "g1funder" 1000 7)) Mock.scenarioLedger
           (fst (fundAccounts "pw" Mock.mockDistributor Mock.scenarioAccounts
                  (Mock.ugnot 2000) (Mock.start Mock.scenarioLedger)))).
  - reflexivity.
  - reflexivity.
  - apply surjective_pairing.
Defined.

(** C7 on the scenario ledger: the scan leaves the short accounts in list
    order, 2000 before 100. *)
Lemma allocation_and_transfers_use_sorted_short_accounts_witness :
  exists sorted,
    Sorted leMissingFunds sorted /\
    Permutation sorted [Mock.short "g1empty" 2000; Mock.short "g1near" 100] /\
    match allocLoop sorted 1000 0%nat with
    | None =>
        fst (fundAccounts "pw" Mock.mockDistributor Mock.scenarioAccounts
                  (Mock.ugnot 2000) (Mock.start Mock.scenarioLedger))
        = Panic Go.CoinPanic
    | Some (_, O) =>
        fst (fundAccounts "pw" Mock.mockDistributor Mock.scenarioAccounts
                  (Mock.ugnot 2000) (Mock.start Mock.scenarioLedger))
        = Val (None, Some (Go.errors_New "insufficient distributor funds"))
    | Some (_, S _) =>
        exists ending,
          fst (fundAccounts "pw" Mock.mockDistributor Mock.scenarioAccounts
                  (Mock.ugnot 2000) (Mock.start Mock.scenarioLedger))
          = execResult [Mock.key "g1ready"] sorted ending
    end /\
    exists transfers n,
      trace (snd (fundAccounts "pw" Mock.mockDistributor Mock.scenarioAccounts
                  (Mock.ugnot 2000) (Mock.start Mock.scenarioLedger)))
      = trace (snd (scanLoop Mock.mockDistributor (Mock.ugnot 2000)
                    [Mock.key "g1ready"; Mock.key "g1empty"; Mock.key "g1near"]
                    [] [] (Mock.start Mock.scenarioLedger)))
        ++ EvGetAccount "g1funder" (inr (snd (Mock.acc "g1funder" 1000 7))) :: transfers /\
      signRequests transfers = map (transferOf (snd (Mock.acc "g1funder" 1000 7))) (firstn n sorted).
Proof.
  apply (allocation_and_transfers_use_sorted_short_accounts "pw" Mock.mockDistributor
           (Mock.key "g1funder") [Mock.key "g1ready"; Mock.key "g1empty"; Mock.key "g1near"]
           (Mock.ugnot 2000) (Mock.start Mock.scenarioLedger)
           (snd (scanLoop Mock.mockDistributor (Mock.ugnot 2000)
                    [Mock.key "g1ready"; Mock.key "g1empty"; Mock.key "g1near"]
                    [] [] (Mock.start Mock.scenarioLedger)))
           [Mock.key "g1ready"] [Mock.short "g1empty" 2000; Mock.short "g1near" 100]
           (snd (Mock.acc "g1funder" 1000 7)) Mock.scenarioLedger
           (fst (fundAccounts "pw" Mock.mockDistributor Mock.scenarioAccounts
                  (Mock.ugnot 2000) (Mock.start Mock.scenarioLedger)))).
  - reflexivity.
  - reflexivity.
  - apply surjective_pairing.
Defined.

(** X9 on the scenario ledger, required balance 2000. *)
Lemma transfer_tops_up_to_required_balance_witness :
  exists tr,
    trace (snd (fundAccounts "pw" Mock.mockDistributor Mock.scenarioAccounts
                  (Mock.ugnot 2000) (Mock.start Mock.scenarioLedger))) = [] ++ tr /\
    Forall (fun tx =>
              exists a,
                In a [Mock.key "g1ready"; Mock.key "g1empty"; Mock.key "g1near"] /\
                std.AmountOf (gnoland.Coins (Mock.held Mock.scenarioLedger a))
                  common.Denomination < 2000 /\
                map (fun m => (bank.ToAddress m, bank.Amount m)) (Msgs tx)
                = [(keys.GetAddress a,
                    2000 - std.AmountOf (gnoland.Coins (Mock.held Mock.scenarioLedger a))
                             common.Denomination)])
           (signRequests tr).
Proof.
  apply (transfer_tops_up_to_required_balance "pw" Mock.mockDistributor
           (Mock.ugnot 2000) (Mock.held Mock.scenarioLedger) Mock.scenarioLedger []
           (Mock.key "g1funder")
           [Mock.key "g1ready"; Mock.key "g1empty"; Mock.key "g1near"]
           (fst (fundAccounts "pw" Mock.mockDistributor Mock.scenarioAccounts
                   (Mock.ugnot 2000) (Mock.start Mock.scenarioLedger)))).
  - intros a Ha. simpl in Ha.
    destruct Ha as [<-|[<-|[<-|[]]]]; reflexivity.
  - intros a Ha. simpl in Ha.
    destruct Ha as [<-|[<-|[<-|[]]]]; vm_compute; split; discriminate.
  - vm_compute. split; discriminate.
  - apply surjective_pairing.
Defined.

(** X10 on the scenario ledger. *)
Lemma lookups_follow_the_list_witness :
  exists tr,
    trace (snd (fundAccounts "pw" Mock.mockDistributor Mock.scenarioAccounts
                  (Mock.ugnot 2000) (Mock.start Mock.scenarioLedger))) = [] ++ tr /\
    lookedUp tr
    = firstn (length (lookedUp tr))
        (map (fun a => addressOf a)
           ([Mock.key "g1ready"; Mock.key "g1empty"; Mock.key "g1near"]
            ++ [Mock.key "g1funder"])).
Proof.
  apply (lookups_follow_the_list "pw" Mock.mockDistributor (Mock.key "g1funder")
           [Mock.key "g1ready"; Mock.key "g1empty"; Mock.key "g1near"]
           (Mock.ugnot 2000) (Mock.start Mock.scenarioLedger)
           (fst (fundAccounts "pw" Mock.mockDistributor Mock.scenarioAccounts
                   (Mock.ugnot 2000) (Mock.start Mock.scenarioLedger)))).
  apply surjective_pairing.
Defined.

(** X11 on the scenario ledger. *)
Lemma signing_starts_after_all_lookups_witness :
  exists lookups distributor transfers,
    trace (snd (fundAccounts "pw" Mock.mockDistributor Mock.scenarioAccounts
                  (Mock.ugnot 2000) (Mock.start Mock.scenarioLedger)))
    = lookups ++ EvGetAccount "g1funder" (inr distributor) :: transfers /\
    allOk lookups /\
    lookedUp lookups = ["g1ready"; "g1empty"; "g1near"] /\
    length lookups = 3%nat /\
    Forall (fun e => isGetAccount e = false) transfers.
Proof.
  apply (signing_starts_after_all_lookups "pw" Mock.mockDistributor
           (Mock.key "g1funder")
           [Mock.key "g1ready"; Mock.key "g1empty"; Mock.key "g1near"]
           (Mock.ugnot 2000) (Mock.start Mock.scenarioLedger)
           (fst (fundAccounts "pw" Mock.mockDistributor Mock.scenarioAccounts
                   (Mock.ugnot 2000) (Mock.start Mock.scenarioLedger)))
           (snd (fundAccounts "pw" Mock.mockDistributor Mock.scenarioAccounts
                   (Mock.ugnot 2000) (Mock.start Mock.scenarioLedger)))).
  - apply surjective_pairing.
  - reflexivity.
  - vm_compute. discriminate.
Defined.

(** X12 on the scenario ledger, required balance 2000. *)
Lemma scan_keeps_list_order_witness :
  exists ready short tr,
    scanLoop Mock.mockDistributor (Mock.ugnot 2000)
      [Mock.key "g1ready"; Mock.key "g1empty"; Mock.key "g1near"] [] []
      (Mock.start Mock.scenarioLedger)
    = (Val (ready, short), {| world := Mock.scenarioLedger; trace := [] ++ tr |}) /\
    ready = [Mock.key "g1ready"] /\
    map account short = [Mock.key "g1empty"; Mock.key "g1near"] /\
    lookedUp tr = ["g1ready"; "g1empty"; "g1near"] /\
    length tr = 3%nat /\
    allOk tr.
Proof.
  apply (scan_keeps_list_order Mock.mockDistributor (Mock.ugnot 2000)
           (Mock.held Mock.scenarioLedger) Mock.scenarioLedger []
           [Mock.key "g1ready"; Mock.key "g1empty"; Mock.key "g1near"]).
  intros a Ha. simpl in Ha.
  destruct Ha as [<-|[<-|[<-|[]]]]; reflexivity.
Defined.
